(** * webver: the order workflow of [app.py] over its SQLite store

    A shallow embedding of [src/app.py]: the three tables of [bot_data.db],
    the seeding done by [init_db], the helpers [get_item_prices],
    [is_reseller], [generate_short_transaction_id], [generate_qr_code] and the
    four route handlers [home], [buy], [order_status] and [orders].

    Handlers are computations in a state-and-exception monad over a [world]:
    the database file, the state of Python's global [random] generator and the
    wall clock read by [now_iso].  The KHQR, qrcode and base64 libraries are
    collaborators outside the repository; they are Section variables, and an
    exception raised by one of them is the result [None]. *)

From Stdlib Require Import ZArith List String Ascii Bool Lia Arith.
From Stdlib Require Import PrimFloat Sorted Permutation.
Import ListNotations.

Set Warnings "-inexact-float".
Local Open Scope string_scope.

(** ** Data model: the schema created by [init_db] *)

(** A column of SQLite type REAL holds an IEEE-754 binary64 number, which is
    also what a Python [float] is. *)
Definition REAL : Type := PrimFloat.float.
Bind Scope float_scope with REAL.

(** [users (user_id INTEGER PRIMARY KEY, username TEXT, balance REAL DEFAULT 0,
    is_reseller INTEGER DEFAULT 0)] *)
Module Users.
Record row : Type := mk
  { user_id : Z;
    username : string;
    balance : REAL;
    is_reseller : Z }.
End Users.

(** [item_prices (item_id TEXT PRIMARY KEY, game TEXT, normal_price REAL,
    reseller_price REAL)] *)
Module ItemPrices.
Record row : Type := mk
  { item_id : string;
    game : string;
    normal_price : REAL;
    reseller_price : REAL }.
End ItemPrices.

(** [orders (order_id TEXT PRIMARY KEY, user_id INTEGER, game TEXT,
    item_id TEXT, amount REAL, server_id TEXT, zone_id TEXT, md5 TEXT,
    status TEXT, payment_response TEXT, created_at TEXT, paid_at TEXT)].
    [md5], [payment_response] and [paid_at] are bound from Python values that
    may be [None] (SQL NULL), or are left out of the INSERT. *)
Module Orders.
Record row : Type := mk
  { order_id : string;
    user_id : Z;
    game : string;
    item_id : string;
    amount : REAL;
    server_id : string;
    zone_id : string;
    md5 : option string;
    status : string;
    payment_response : option string;
    created_at : string;
    paid_at : option string }.
End Orders.

(** The content of [bot_data.db] once the three [CREATE TABLE IF NOT EXISTS]
    statements have run (they run at import, before any handler, and leave an
    existing table as it is).  Rows are kept in insertion order. *)
Record database : Type := mk_database
  { tbl_users : list Users.row;
    tbl_item_prices : list ItemPrices.row;
    tbl_orders : list Orders.row }.

(** What a handler can read and change: the database, the stream of indices
    still to be drawn from the [random] module, and the readings of the clock
    still to come. *)
Record world : Type := mk_world
  { DB : database;
    random : nat -> nat;
    clock : nat -> string }.

(** ** Exceptions and the handler monad *)

Inductive exn : Type :=
| HTTPException (status_code : Z) (detail : string)
| IntegrityError (message : string)
| OverflowError (message : string).

Definition M (A : Type) : Type := world -> (exn + A) * world.

Definition ret {A : Type} (a : A) : M A := fun w => (inr a, w).

Definition bind {A B : Type} (m : M A) (k : A -> M B) : M B :=
  fun w =>
    match m w with
    | (inl e, w') => (inl e, w')
    | (inr a, w') => k a w'
    end.

Definition raise {A : Type} (e : exn) : M A := fun w => (inl e, w).

Declare Scope handler_scope.
Delimit Scope handler_scope with handler.
Notation "x <- m ;; k" := (bind m (fun x => k))
  (at level 61, m at next level, right associativity) : handler_scope.
Notation "m ;;; k" := (bind m (fun _ => k))
  (at level 61, right associativity) : handler_scope.
Local Open Scope handler_scope.

(** Reading the database inside [with sqlite3.connect(DB) as conn]. *)
Definition get_db : M database := fun w => (inr (DB w), w).

(** [conn.commit()] of a changed database. *)
Definition put_db (d : database) : M unit :=
  fun w => (inr tt, {| DB := d; random := random w; clock := clock w |}).

(** The result and the final world of a run. *)
Definition result_of {A : Type} (m : M A) (w : world) : exn + A := fst (m w).
Definition world_after {A : Type} (m : M A) (w : world) : world := snd (m w).

(** ** SQL statements *)

(** [cursor.fetchone()]: the first row of the result set, or [None]. *)
Definition fetchone {A : Type} (rows : list A) : option A := hd_error rows.

(** [cursor.fetchall()]. *)
Definition fetchall {A : Type} (rows : list A) : list A := rows.

(** [INSERT OR IGNORE INTO item_prices (item_id, game, normal_price,
    reseller_price) VALUES (?, ?, ?, ?)]: the row is dropped when its primary
    key [item_id] is already in the table. *)
Definition insert_or_ignore_item (t : list ItemPrices.row) (r : ItemPrices.row)
  : list ItemPrices.row :=
  if existsb (fun r' => ItemPrices.item_id r' =? ItemPrices.item_id r) t
  then t
  else t ++ [r].

(** [cursor.executemany] of that statement: one row after the other. *)
Definition executemany_insert_or_ignore_item
  (t : list ItemPrices.row) (rows : list ItemPrices.row) : list ItemPrices.row :=
  fold_left insert_or_ignore_item rows t.

(** [INSERT INTO orders (...) VALUES (...)]: a second row with the primary key
    [order_id] of an existing one is refused with [sqlite3.IntegrityError],
    and nothing is written. *)
Definition insert_order (r : Orders.row) : M unit :=
  d <- get_db ;;
  if existsb (fun r' => Orders.order_id r' =? Orders.order_id r) (tbl_orders d)
  then raise (IntegrityError "UNIQUE constraint failed: orders.order_id")
  else put_db {| tbl_users := tbl_users d;
                 tbl_item_prices := tbl_item_prices d;
                 tbl_orders := tbl_orders d ++ [r] |}.

(** ** [init_db] *)

(** The default items of [init_db]. *)
Definition items : list ItemPrices.row :=
  [ ItemPrices.mk "86_DIAMOND" "MLBB" 0.03 0.03;
    ItemPrices.mk "172_DIAMAND" "MLBB" 0.03 0.03;
    ItemPrices.mk "344_DIAMOND" "MLBB" 6.4 5.6;
    ItemPrices.mk "429_DIAMOND" "MLBB" 8.0 7.0;
    ItemPrices.mk "50_DIAMOND" "FF" 1.0 0.85;
    ItemPrices.mk "100_DIAMOND" "FF" 2.0 1.7 ]%float.

Definition init_db : M unit :=
  d <- get_db ;;
  put_db {| tbl_users := tbl_users d;
            tbl_item_prices := executemany_insert_or_ignore_item (tbl_item_prices d) items;
            tbl_orders := tbl_orders d |}.

(** ** Helpers *)

(** [datetime.now(tz).isoformat()]: the next reading of the clock. *)
Definition now_iso : M string :=
  fun w => (inr (clock w 0),
            {| DB := DB w; random := random w; clock := fun i => clock w (S i) |}).

(** One draw of [random.choices]: an index below the size [n] of the
    population ([floor(random() * n)] in CPython).  The stream holds naturals;
    the draw reduces the next one modulo [n]. *)
Definition random_below (n : nat) : M nat :=
  fun w => (inr (random w 0 mod n),
            {| DB := DB w; random := fun i => random w (S i); clock := clock w |}).

(** [random.choices(population, k=k)] *)
Fixpoint choices (population : list ascii) (k : nat) : M (list ascii) :=
  match k with
  | O => ret []
  | S k' =>
      i <- random_below (List.length population) ;;
      rest <- choices population k' ;;
      ret (nth i population "000"%char :: rest)
  end.

Definition ascii_uppercase : string := "ABCDEFGHIJKLMNOPQRSTUVWXYZ".
Definition digits : string := "0123456789".

Definition generate_short_transaction_id : M string :=
  cs <- choices (list_ascii_of_string (ascii_uppercase ++ digits)) 8 ;;
  ret (string_of_list_ascii cs).

(** The pattern [[A-Z0-9]{8}]. *)
Definition is_upper_or_digit (c : ascii) : bool :=
  let n := nat_of_ascii c in
  (((65 <=? n) && (n <=? 90)) || ((48 <=? n) && (n <=? 57)))%nat.

Definition matches_A_Z0_9_8 (s : string) : bool :=
  Nat.eqb (String.length s) 8 && forallb is_upper_or_digit (list_ascii_of_string s).

(** The position of the first occurrence of [c] in [l] (the length of [l]
    when there is none). *)
Fixpoint index_in (c : ascii) (l : list ascii) : nat :=
  match l with
  | [] => 0
  | x :: l' => if Ascii.eqb x c then 0 else S (index_in c l')
  end.

(** Python's [float(x)] on a value that already is a float.  The catalog of
    the model holds numbers in [normal_price]; a NULL or a text there, on
    which [float] raises, is outside it. *)
Definition py_float (x : REAL) : REAL := x.

(** Python's truth value of a string-or-[None]: [None] and the empty string
    are false. *)
Definition truthy (v : option string) : bool :=
  match v with
  | None => false
  | Some s => negb (s =? "")
  end.

(** A Python [dict] with string keys, in insertion order: assigning to a key
    that is present replaces its value in place. *)
Definition dict (V : Type) : Type := list (string * V).

Fixpoint dict_set {V : Type} (d : dict V) (k : string) (v : V) : dict V :=
  match d with
  | [] => [(k, v)]
  | (k', v') :: d' => if k' =? k then (k, v) :: d' else (k', v') :: dict_set d' k v
  end.

(** The value [{"normal": ..., "reseller": ...}] of [get_item_prices]. *)
Record price_pair : Type := mk_price_pair
  { normal : REAL;
    reseller : REAL }.

(** The JSON bodies of [order_status]: an object whose members are strings or
    [null]. *)
Inductive json_value : Type :=
| JNull
| JString (s : string).

Definition json : Type := list (string * json_value).

Definition json_of_text (v : option string) : json_value :=
  match v with
  | None => JNull
  | Some s => JString s
  end.

(** A row of the SELECT of [orders]: [order_id, game, item_id, amount,
    server_id, zone_id, status, created_at, paid_at]. *)
Record order_summary : Type := mk_order_summary
  { s_order_id : string;
    s_game : string;
    s_item_id : string;
    s_amount : REAL;
    s_server_id : string;
    s_zone_id : string;
    s_status : string;
    s_created_at : string;
    s_paid_at : option string }.

Definition summary_of (r : Orders.row) : order_summary :=
  {| s_order_id := Orders.order_id r;
     s_game := Orders.game r;
     s_item_id := Orders.item_id r;
     s_amount := Orders.amount r;
     s_server_id := Orders.server_id r;
     s_zone_id := Orders.zone_id r;
     s_status := Orders.status r;
     s_created_at := Orders.created_at r;
     s_paid_at := Orders.paid_at r |}.

(** The context handed to each template (the [request] entry left out). *)
Inductive context : Type :=
| mlbb_context (ml_items ff_items : dict price_pair) (reseller : bool)
| deposit_context (qr : option string) (order_id : string) (amount : REAL)
| orders_context (orders : list order_summary).

(** What a handler returns: a rendered template, an explicit [JSONResponse],
    or a plain [dict] that the framework sends as JSON with status 200. *)
Inductive response : Type :=
| TemplateResponse (name : string) (ctx : context)
| JSONResponse (content : json) (status_code : Z)
| Dict (content : json).

(** [ORDER BY created_at DESC] on TEXT values: byte-wise comparison, greatest
    first.  SQLite leaves the order of equal keys open; here rows with equal
    keys keep their order. *)
Fixpoint insert_desc (r : Orders.row) (sorted : list Orders.row) : list Orders.row :=
  match sorted with
  | [] => [r]
  | x :: rest =>
      if String.leb (Orders.created_at x) (Orders.created_at r)
      then r :: x :: rest
      else x :: insert_desc r rest
  end.

Definition order_by_created_at_desc (rows : list Orders.row) : list Orders.row :=
  fold_right insert_desc [] rows.

(** ** Item and user functions *)

Definition get_item_prices (game : string) : M (dict price_pair) :=
  d <- get_db ;;
  let rows :=
    fetchall
      (map (fun r => (ItemPrices.item_id r, ItemPrices.normal_price r,
                      ItemPrices.reseller_price r))
           (filter (fun r => ItemPrices.game r =? game) (tbl_item_prices d))) in
  ret (fold_left
         (fun acc r =>
            match r with
            | (r0, r1, r2) => dict_set acc r0 {| normal := r1; reseller := r2 |}
            end)
         rows []).

(** The Python integers that [sqlite3] binds to a statement as an SQLite
    INTEGER: those of a signed 64-bit word.  Binding any other raises
    [OverflowError]. *)
Definition sqlite_int64 (n : Z) : bool :=
  (Z.leb (- 2 ^ 63) n && Z.leb n (2 ^ 63 - 1))%Z.

Definition is_reseller (user_id : Z) : M bool :=
  d <- get_db ;;
  if negb (sqlite_int64 user_id)
  then raise (OverflowError "Python int too large to convert to SQLite INTEGER")
  else
    let result :=
      fetchone
        (map Users.is_reseller
             (filter (fun r => Z.eqb (Users.user_id r) user_id) (tbl_users d))) in
    ret (match result with
         | Some result0 => Z.eqb result0 1
         | None => false
         end).

(** [SELECT normal_price FROM item_prices WHERE item_id=? AND game=?] followed
    by [fetchone()], as [buy] runs it. *)
Definition select_normal_price (d : database) (item_id game : string) : option REAL :=
  fetchone
    (map ItemPrices.normal_price
         (filter (fun r => (ItemPrices.item_id r =? item_id)
                           && (ItemPrices.game r =? game))
                 (tbl_item_prices d))).

(** ** QR generation *)

(** The keyword arguments of [khqr.create_qr]. *)
Record qr_request : Type := mk_qr_request
  { bank_account : string;
    merchant_name : string;
    merchant_city : string;
    qr_amount : REAL;
    currency : string;
    store_label : string;
    phone_number : string;
    bill_number : string;
    terminal_label : string;
    static : bool }.

(** ** Sample collaborators and states, used by the examples *)

Definition sample_create_qr (q : qr_request) : option string :=
  Some ("00020101021229" ++ bill_number q).

Definition sample_qrcode_make (qr_payload : string) : option string :=
  Some qr_payload.

Definition sample_img_save_png (img : string) : option (list Byte.byte) :=
  Some (list_byte_of_string img).

Definition sample_generate_md5 (qr_payload : string) : option string :=
  Some "0cc175b9c0f1b6a831c399e269772661".

Definition sample_b64encode (buf : list Byte.byte) : string :=
  "iVBORw0KGgo" ++ string_of_list_byte buf.

(** A [khqr.create_qr] that raises on every call. *)
Definition failing_create_qr (q : qr_request) : option string := None.

(** A generator that draws index 0 every time: every identifier is
    [AAAAAAAA]. *)
Definition zeros : nat -> nat := fun _ => 0.

(** The draws 0, 1, 2, ...: identifiers [ABCDEFGH], [IJKLMNOP], ... *)
Definition counting : nat -> nat := fun i => i.

Definition noon : nat -> string := fun _ => "2024-01-01T12:00:00+07:00".

Definition empty_database : database :=
  {| tbl_users := []; tbl_item_prices := []; tbl_orders := [] |}.

Definition seeded_database : database :=
  {| tbl_users := []; tbl_item_prices := items; tbl_orders := [] |}.

Definition order_AAAAAAAA : Orders.row :=
  {| Orders.order_id := "AAAAAAAA";
     Orders.user_id := 1;
     Orders.game := "FF";
     Orders.item_id := "50_DIAMOND";
     Orders.amount := 1.0%float;
     Orders.server_id := "77";
     Orders.zone_id := "3";
     Orders.md5 := Some "0cc175b9c0f1b6a831c399e269772661";
     Orders.status := "UNPAID";
     Orders.payment_response := None;
     Orders.created_at := "2023-12-31T09:30:00+07:00";
     Orders.paid_at := None |}.

Definition order_of_user_2 : Orders.row :=
  {| Orders.order_id := "ZZ99ZZ99";
     Orders.user_id := 2;
     Orders.game := "MLBB";
     Orders.item_id := "344_DIAMOND";
     Orders.amount := 6.4%float;
     Orders.server_id := "12";
     Orders.zone_id := "8";
     Orders.md5 := Some "92eb5ffee6ae2fec3ad71c777531578f";
     Orders.status := "PAID";
     Orders.payment_response := Some "{}";
     Orders.created_at := "2024-01-02T08:00:00+07:00";
     Orders.paid_at := Some "2024-01-02T08:05:00+07:00" |}.

Definition order_Q7 : Orders.row :=
  {| Orders.order_id := "Q7Q7Q7Q7";
     Orders.user_id := 1;
     Orders.game := "MLBB";
     Orders.item_id := "429_DIAMOND";
     Orders.amount := 8.0%float;
     Orders.server_id := "12";
     Orders.zone_id := "8";
     Orders.md5 := Some "4a8a08f09d37b73795649038408b5f33";
     Orders.status := "UNPAID";
     Orders.payment_response := None;
     Orders.created_at := "2024-01-03T10:00:00+07:00";
     Orders.paid_at := None |}.

Definition users_sample : list Users.row :=
  [ Users.mk 1 "demo" 0 0; Users.mk 7 "shop" 12.5 1 ]%float.

Definition database_with_orders : database :=
  {| tbl_users := users_sample;
     tbl_item_prices := items;
     tbl_orders := [order_AAAAAAAA; order_of_user_2; order_Q7] |}.

(** The seeded catalog after the price of [344_DIAMOND] was edited. *)
Definition database_with_edited_price : database :=
  {| tbl_users := users_sample;
     tbl_item_prices :=
       [ ItemPrices.mk "86_DIAMOND" "MLBB" 0.03 0.03;
         ItemPrices.mk "172_DIAMAND" "MLBB" 0.03 0.03;
         ItemPrices.mk "344_DIAMOND" "MLBB" 6.9 6.1;
         ItemPrices.mk "429_DIAMOND" "MLBB" 8.0 7.0;
         ItemPrices.mk "50_DIAMOND" "FF" 1.0 0.85;
         ItemPrices.mk "100_DIAMOND" "FF" 2.0 1.7 ]%float;
     tbl_orders := [] |}.

(** The same orders handed to other owners, with no users at all. *)
Definition with_user_id (u : Z) (o : Orders.row) : Orders.row :=
  {| Orders.order_id := Orders.order_id o;
     Orders.user_id := u;
     Orders.game := Orders.game o;
     Orders.item_id := Orders.item_id o;
     Orders.amount := Orders.amount o;
     Orders.server_id := Orders.server_id o;
     Orders.zone_id := Orders.zone_id o;
     Orders.md5 := Orders.md5 o;
     Orders.status := Orders.status o;
     Orders.payment_response := Orders.payment_response o;
     Orders.created_at := Orders.created_at o;
     Orders.paid_at := Orders.paid_at o |}.

Definition database_other_owners : database :=
  {| tbl_users := [];
     tbl_item_prices := items;
     tbl_orders := map (with_user_id 99) (tbl_orders database_with_orders) |}.

Definition world_counting : world :=
  {| DB := database_with_orders; random := counting; clock := noon |}.

Definition world_zeros : world :=
  {| DB := database_with_orders; random := zeros; clock := noon |}.

Definition world_edited : world :=
  {| DB := database_with_edited_price; random := counting; clock := noon |}.

Definition world_other_owners : world :=
  {| DB := database_other_owners; random := zeros; clock := noon |}.

(** The seeded catalog with every reseller price set to one cent, a demo
    user who is a reseller, and the same orders. *)
Definition with_reseller_price (p : REAL) (r : ItemPrices.row) : ItemPrices.row :=
  {| ItemPrices.item_id := ItemPrices.item_id r;
     ItemPrices.game := ItemPrices.game r;
     ItemPrices.normal_price := ItemPrices.normal_price r;
     ItemPrices.reseller_price := p |}.

Definition database_cheap_resellers : database :=
  {| tbl_users := [ Users.mk 1 "demo" 0 1 ];
     tbl_item_prices := map (with_reseller_price 0.01) items;
     tbl_orders := tbl_orders database_with_orders |}.

Definition world_cheap_resellers : world :=
  {| DB := database_cheap_resellers; random := counting; clock := noon |}.

(** A world with nothing in its database. *)
Definition world_empty : world :=
  {| DB := empty_database; random := zeros; clock := noon |}.

Section Handlers.

Set Default Proof Using "Type".

(** Configuration read from the environment at import. *)
Variable BANK_ACCOUNT : string.
Variable PHONE_NUMBER : string.

(** The collaborators.  [None] is a raised exception. *)
Variable image : Type.
Variable khqr_create_qr : qr_request -> option string.
Variable qrcode_make : string -> option image.
Variable img_save_png : image -> option (list Byte.byte).
Variable khqr_generate_md5 : string -> option string.
Variable b64encode : list Byte.byte -> string.

(** For the proofs that do not concern the collaborators. *)
Ltac without_collaborators :=
  clear b64encode khqr_generate_md5 img_save_png qrcode_make khqr_create_qr
        image PHONE_NUMBER BANK_ACCOUNT.

(** The body of the [try] of [generate_qr_code] once the arguments of
    [khqr.create_qr] are evaluated: the first exception ends it. *)
Definition qr_of_payload_request (q : qr_request) : option (string * string) :=
  match khqr_create_qr q with
  | None => None
  | Some qr_payload =>
      match qrcode_make qr_payload with
      | None => None
      | Some img =>
          match img_save_png img with
          | None => None
          | Some buf =>
              match khqr_generate_md5 qr_payload with
              | None => None
              | Some md5_hash => Some (b64encode buf, md5_hash)
              end
          end
      end
  end.

(** The arguments [generate_qr_code] passes to [khqr.create_qr]. *)
Definition create_qr_arguments (amount : REAL) (bill : string) : qr_request :=
  {| bank_account := BANK_ACCOUNT;
     merchant_name := "PI YA LEGEND";
     merchant_city := "Phnom Penh";
     qr_amount := amount;
     currency := "USD";
     store_label := "MShop";
     phone_number := PHONE_NUMBER;
     bill_number := bill;
     terminal_label := "Cashier-01";
     static := false |}.

Definition generate_qr_code (amount : REAL) : M (option string * option string) :=
  bill <- generate_short_transaction_id ;;
  match qr_of_payload_request (create_qr_arguments amount bill) with
  | Some (b64, md5_hash) => ret (Some b64, Some md5_hash)
  | None => ret (None, None)
  end.

(** ** Routes *)

Definition home : M response :=
  let user_id := 1%Z in
  ml_items <- get_item_prices "MLBB" ;;
  ff_items <- get_item_prices "FF" ;;
  reseller <- is_reseller user_id ;;
  ret (TemplateResponse "mlbb.html" (mlbb_context ml_items ff_items reseller)).

Definition buy (game item_id server_id zone_id : string) : M response :=
  let user_id := 1%Z in
  d <- get_db ;;
  let row := select_normal_price d item_id game in
  match row with
  | None => raise (HTTPException 404 "Item not found")
  | Some row0 =>
      let amount := py_float row0 in
      qr <- generate_qr_code amount ;;
      let qr_b64 := fst qr in
      let md5 := snd qr in
      if negb (truthy qr_b64) || negb (truthy md5)
      then raise (HTTPException 500 "Failed to generate QR")
      else
        order_id <- generate_short_transaction_id ;;
        created_at <- now_iso ;;
        insert_order
          {| Orders.order_id := order_id;
             Orders.user_id := user_id;
             Orders.game := game;
             Orders.item_id := item_id;
             Orders.amount := amount;
             Orders.server_id := server_id;
             Orders.zone_id := zone_id;
             Orders.md5 := md5;
             Orders.status := "UNPAID";
             Orders.payment_response := None;
             Orders.created_at := created_at;
             Orders.paid_at := None |} ;;;
        ret (TemplateResponse "deposit.html" (deposit_context qr_b64 order_id amount))
  end.

Definition order_status (order_id : string) : M response :=
  d <- get_db ;;
  let r :=
    fetchone
      (map (fun o => (Orders.status o, Orders.payment_response o, Orders.paid_at o))
           (filter (fun o => Orders.order_id o =? order_id) (tbl_orders d))) in
  match r with
  | None => ret (JSONResponse [("error", JString "not found")] 404)
  | Some (r0, r1, r2) =>
      ret (Dict [("status", JString r0);
                 ("payment_response", json_of_text r1);
                 ("paid_at", json_of_text r2)])
  end.

Definition orders : M response :=
  let user_id := 1%Z in
  d <- get_db ;;
  let rows :=
    fetchall
      (map summary_of
           (order_by_created_at_desc
              (filter (fun o => Z.eqb (Orders.user_id o) user_id) (tbl_orders d)))) in
  ret (TemplateResponse "orders.html" (orders_context rows)).

(** The route table of [app]. *)
Inductive request : Type :=
| GET_home
| POST_buy (game item_id server_id zone_id : string)
| GET_order_status (order_id : string)
| GET_orders.

Definition handle (req : request) : M response :=
  match req with
  | GET_home => home
  | POST_buy game item_id server_id zone_id => buy game item_id server_id zone_id
  | GET_order_status order_id => order_status order_id
  | GET_orders => orders
  end.


(** ** The outcomes of [buy] *)

(** The order row [buy] inserts. *)
Definition new_order (order_id game item_id : string) (amount : REAL)
  (server_id zone_id : string) (md5 : option string) (created_at : string) : Orders.row :=
  {| Orders.order_id := order_id;
     Orders.user_id := 1;
     Orders.game := game;
     Orders.item_id := item_id;
     Orders.amount := amount;
     Orders.server_id := server_id;
     Orders.zone_id := zone_id;
     Orders.md5 := md5;
     Orders.status := "UNPAID";
     Orders.payment_response := None;
     Orders.created_at := created_at;
     Orders.paid_at := None |}.

(** The four ways a run of [buy] from [w] can end, each with the facts that
    lead to it. *)
Inductive buy_outcome (w : world) (game item_id server_id zone_id : string)
  : (exn + response) * world -> Prop :=
| buy_item_not_found :
    select_normal_price (DB w) item_id game = None ->
    buy_outcome w game item_id server_id zone_id
      (inl (HTTPException 404 "Item not found"), w)
| buy_qr_failed (p : REAL) (qr : option string * option string) (w1 : world) :
    select_normal_price (DB w) item_id game = Some p ->
    generate_qr_code (py_float p) w = (inr qr, w1) ->
    negb (truthy (fst qr)) || negb (truthy (snd qr)) = true ->
    DB w1 = DB w ->
    buy_outcome w game item_id server_id zone_id
      (inl (HTTPException 500 "Failed to generate QR"), w1)
| buy_order_id_taken (p : REAL) (qr : option string * option string)
    (w1 w2 w' : world) (oid : string) :
    select_normal_price (DB w) item_id game = Some p ->
    generate_qr_code (py_float p) w = (inr qr, w1) ->
    negb (truthy (fst qr)) || negb (truthy (snd qr)) = false ->
    generate_short_transaction_id w1 = (inr oid, w2) ->
    In oid (map Orders.order_id (tbl_orders (DB w))) ->
    DB w' = DB w ->
    buy_outcome w game item_id server_id zone_id
      (inl (IntegrityError "UNIQUE constraint failed: orders.order_id"), w')
| buy_created (p : REAL) (qr : option string * option string)
    (w1 w2 w' : world) (oid : string) :
    select_normal_price (DB w) item_id game = Some p ->
    generate_qr_code (py_float p) w = (inr qr, w1) ->
    negb (truthy (fst qr)) || negb (truthy (snd qr)) = false ->
    generate_short_transaction_id w1 = (inr oid, w2) ->
    ~ In oid (map Orders.order_id (tbl_orders (DB w))) ->
    DB w' =
      {| tbl_users := tbl_users (DB w);
         tbl_item_prices := tbl_item_prices (DB w);
         tbl_orders :=
           tbl_orders (DB w)
           ++ [new_order oid game item_id (py_float p) server_id zone_id (snd qr)
                 (clock w 0)] |} ->
    buy_outcome w game item_id server_id zone_id
      (inr (TemplateResponse "deposit.html"
              (deposit_context (fst qr) oid (py_float p))), w').

(** The entry of [get_item_prices] for a row of [item_prices]. *)
Definition price_entry (r : ItemPrices.row) : string * price_pair :=
  (ItemPrices.item_id r,
   {| normal := ItemPrices.normal_price r; reseller := ItemPrices.reseller_price r |}).

(** The pair [(game, item_id)] is in the catalog. *)
Definition in_catalog (d : database) (game item_id : string) : Prop :=
  exists r, In r (tbl_item_prices d)
            /\ ItemPrices.item_id r = item_id /\ ItemPrices.game r = game.

(** An order with this [order_id] exists. *)
Definition order_exists (d : database) (order_id : string) : Prop :=
  exists r, In r (tbl_orders d) /\ Orders.order_id r = order_id.

(** A step of [generate_qr_code] raises on the request [q]. *)
Definition qr_step_raises (q : qr_request) : Prop :=
  khqr_create_qr q = None
  \/ exists qr_payload, khqr_create_qr q = Some qr_payload
       /\ (qrcode_make qr_payload = None
           \/ (exists img, qrcode_make qr_payload = Some img /\ img_save_png img = None)
           \/ khqr_generate_md5 qr_payload = None).

(** Newest first: no row is followed by one with a greater [created_at]. *)
Definition rows_newest_first (rows : list Orders.row) : Prop :=
  StronglySorted
    (fun a b => String.leb (Orders.created_at b) (Orders.created_at a) = true) rows.

(** The same on the rows [orders] hands to its template. *)
Definition newest_first (summaries : list order_summary) : Prop :=
  StronglySorted
    (fun a b => String.leb (s_created_at b) (s_created_at a) = true) summaries.

(** Every default item of [init_db] has a row. *)
Definition seeded (d : database) : Prop :=
  forall r, In r items ->
    In (ItemPrices.item_id r) (map ItemPrices.item_id (tbl_item_prices d)).

(** The primary-key constraints of the schema. *)
Record pk_unique (d : database) : Prop := mk_pk_unique
  { pk_users : NoDup (map Users.user_id (tbl_users d));
    pk_item_prices : NoDup (map ItemPrices.item_id (tbl_item_prices d));
    pk_orders : NoDup (map Orders.order_id (tbl_orders d)) }.

(** The columns [order_status] reads. *)
Definition status_columns (o : Orders.row) : string * string * option string * option string :=
  (Orders.order_id o, Orders.status o, Orders.payment_response o, Orders.paid_at o).

(** The JSON body [order_status] returns for a stored row. *)
Definition status_body (o : Orders.row) : json :=
  [("status", JString (Orders.status o));
   ("payment_response", json_of_text (Orders.payment_response o));
   ("paid_at", json_of_text (Orders.paid_at o))].

(** The states the service can be in after any number of requests, starting
    from [w0]. *)
Inductive reachable (w0 : world) : world -> Prop :=
| reachable_start : reachable w0 w0
| reachable_request (w : world) (req : request) :
    reachable w0 w -> reachable w0 (world_after (handle req) w).

(** What every order created by [buy] looks like, for the catalog of [d]. *)
Definition created_by_buy (d : database) (o : Orders.row) : Prop :=
  Orders.user_id o = 1%Z
  /\ Orders.status o = "UNPAID"
  /\ Orders.payment_response o = None
  /\ Orders.paid_at o = None
  /\ truthy (Orders.md5 o) = true
  /\ matches_A_Z0_9_8 (Orders.order_id o) = true
  /\ select_normal_price d (Orders.item_id o) (Orders.game o) = Some (Orders.amount o).

(** The columns of [item_prices] that [buy] reads. *)
Definition price_columns (r : ItemPrices.row) : string * string * REAL :=
  (ItemPrices.item_id r, ItemPrices.game r, ItemPrices.normal_price r).

(** * Properties *)

(** ** Runs of the helpers *)

Lemma choices_run (population : list ascii) (k : nat) (w : world) :
  exists cs w',
    choices population k w = (inr cs, w')
    /\ DB w' = DB w /\ clock w' = clock w
    /\ (forall i, random w' i = random w (k + i))
    /\ List.length cs = k
    /\ (population <> [] -> Forall (fun c => In c population) cs).
Proof.
  revert w. induction k as [|k IH]; intros w.
  - exists [], w. simpl. unfold ret. repeat split; auto.
  - cbn [choices]. unfold bind at 1, random_below at 1.
    set (w1 := {| DB := DB w; random := fun i => random w (S i); clock := clock w |}).
    destruct (IH w1) as (cs & w' & E & Hdb & Hclk & Hrnd & Hlen & Hin).
    unfold bind at 1. rewrite E. unfold ret.
    exists (nth (random w 0 mod List.length population) population "000"%char :: cs), w'.
    split; [reflexivity|]. split; [exact Hdb|]. split; [exact Hclk|].
    split; [|split].
    + intros i. rewrite Hrnd. reflexivity.
    + simpl. now rewrite Hlen.
    + intros Hne. constructor; auto.
      apply nth_In. apply Nat.mod_upper_bound.
      destruct population; [congruence | simpl; lia].
Qed.

Lemma alphabet_in_pattern :
  forallb is_upper_or_digit (list_ascii_of_string (ascii_uppercase ++ digits)) = true.
Proof. reflexivity. Qed.

Lemma length_string_of_list_ascii (cs : list ascii) :
  String.length (string_of_list_ascii cs) = List.length cs.
Proof. induction cs as [|c cs IH]; simpl; congruence. Qed.

Lemma generate_short_transaction_id_run (w : world) :
  exists s w',
    generate_short_transaction_id w = (inr s, w')
    /\ DB w' = DB w /\ clock w' = clock w
    /\ (forall i, random w' i = random w (8 + i))
    /\ matches_A_Z0_9_8 s = true.
Proof.
  unfold generate_short_transaction_id, bind.
  destruct (choices_run (list_ascii_of_string (ascii_uppercase ++ digits)) 8 w)
    as (cs & w' & E & Hdb & Hclk & Hrnd & Hlen & Hin).
  rewrite E. unfold ret. exists (string_of_list_ascii cs), w'.
  repeat split; auto.
  unfold matches_A_Z0_9_8.
  rewrite length_string_of_list_ascii, Hlen, list_ascii_of_string_of_list_ascii.
  simpl. rewrite forallb_forall. intros c Hc.
  assert (Hne : list_ascii_of_string (ascii_uppercase ++ digits) <> []) by discriminate.
  specialize (Hin Hne). rewrite Forall_forall in Hin.
  pose proof alphabet_in_pattern as Ha. rewrite forallb_forall in Ha.
  apply Ha, Hin, Hc.
Qed.

Lemma generate_qr_code_run (amount : REAL) (w : world) :
  exists bill w',
    generate_short_transaction_id w = (inr bill, w')
    /\ generate_qr_code amount w =
         (inr match qr_of_payload_request (create_qr_arguments amount bill) with
              | Some (b64, md5_hash) => (Some b64, Some md5_hash)
              | None => (None, None)
              end, w')
    /\ DB w' = DB w /\ clock w' = clock w.
Proof.
  destruct (generate_short_transaction_id_run w) as (bill & w' & E & Hdb & Hclk & _ & _).
  exists bill, w'. repeat split; auto.
  unfold generate_qr_code, bind. rewrite E.
  destruct (qr_of_payload_request _) as [[b64 md5_hash]|]; reflexivity.
Qed.


(** ** Lookups by key *)

Lemma existsb_order_id (oid : string) (l : list Orders.row) :
  existsb (fun r' => Orders.order_id r' =? oid) l = true
  <-> In oid (map Orders.order_id l).
Proof.
  rewrite existsb_exists, in_map_iff. split.
  - intros (r & Hin & E). apply String.eqb_eq in E. eauto.
  - intros (r & E & Hin). exists r. split; [assumption|]. now apply String.eqb_eq.
Qed.

Lemma existsb_item_id (iid : string) (l : list ItemPrices.row) :
  existsb (fun r' => ItemPrices.item_id r' =? iid) l = true
  <-> In iid (map ItemPrices.item_id l).
Proof.
  rewrite existsb_exists, in_map_iff. split.
  - intros (r & Hin & E). apply String.eqb_eq in E. eauto.
  - intros (r & E & Hin). exists r. split; [assumption|]. now apply String.eqb_eq.
Qed.

(** ** The run of [buy] *)

Lemma buy_spec (w : world) (game item_id server_id zone_id : string) :
  buy_outcome w game item_id server_id zone_id (buy game item_id server_id zone_id w).
Proof.
  unfold buy. unfold bind at 1. unfold get_db.
  destruct (select_normal_price (DB w) item_id game) as [p|] eqn:Hsel.
  2: { unfold raise. now apply buy_item_not_found. }
  destruct (generate_qr_code_run (py_float p) w) as (bill & w1 & _ & Eqr & Hdb1 & Hclk1).
  unfold bind at 1. rewrite Eqr.
  set (qr := match qr_of_payload_request (create_qr_arguments (py_float p) bill) with
             | Some (b64, md5_hash) => (Some b64, Some md5_hash)
             | None => (None, None)
             end) in *.
  destruct (negb (truthy (fst qr)) || negb (truthy (snd qr))) eqn:Ht.
  { unfold raise. now apply buy_qr_failed with (p := p) (qr := qr). }
  destruct (generate_short_transaction_id_run w1) as (oid & w2 & Eoid & Hdb2 & Hclk2 & _ & _).
  unfold bind at 1. rewrite Eoid.
  unfold bind at 1, now_iso at 1. unfold bind at 1, insert_order.
  unfold bind at 1, get_db. cbn [DB random clock].
  destruct (existsb _ (tbl_orders (DB w2))) eqn:Hex.
  - unfold raise. apply buy_order_id_taken with (p := p) (qr := qr) (w1 := w1) (w2 := w2) (oid := oid);
      auto.
    + apply existsb_order_id in Hex. cbn in Hex. now rewrite Hdb2, Hdb1 in Hex.
    + cbn. now rewrite Hdb2.
  - unfold put_db, ret. cbn [DB random clock].
    apply buy_created with (p := p) (qr := qr) (w1 := w1) (w2 := w2); auto.
    + intros Hin. apply existsb_order_id in Hin. cbn in Hex.
      rewrite Hdb2, Hdb1 in Hex. congruence.
    + cbn. rewrite Hdb2, Hdb1, Hclk2, Hclk1. reflexivity.
Qed.


(** ** [fetchone] on a filtered table *)

Lemma fetchone_filter_none {A B : Type} (f : A -> B) (P : A -> bool) (l : list A) :
  fetchone (map f (filter P l)) = None <-> (forall x, In x l -> P x = false).
Proof.
  unfold fetchone. induction l as [|a l IH]; simpl.
  - split; [intros _ x [] | reflexivity].
  - destruct (P a) eqn:Pa; simpl.
    + split; [discriminate|]. intros H. specialize (H a (or_introl eq_refl)). congruence.
    + rewrite IH. split.
      * intros H x [<-|Hx]; auto.
      * intros H x Hx. apply H. now right.
Qed.

Lemma fetchone_filter_some {A B : Type} (f : A -> B) (P : A -> bool) (l : list A) (y : B) :
  fetchone (map f (filter P l)) = Some y ->
  exists x, In x l /\ P x = true /\ f x = y.
Proof.
  unfold fetchone. induction l as [|a l IH]; simpl; [discriminate|].
  destruct (P a) eqn:Pa; simpl.
  - intros [= <-]. exists a. auto.
  - intros H. destruct (IH H) as (x & Hx & Px & Fx). exists x. auto.
Qed.

(** With a unique key that the condition pins down, the first match is the
    only row with that key. *)
Lemma fetchone_filter_key {A B K : Type} (f : A -> B) (key : A -> K) (P : A -> bool)
  (l : list A) (r : A) :
  NoDup (map key l) ->
  (forall x, P x = true -> key x = key r) ->
  In r l -> P r = true ->
  fetchone (map f (filter P l)) = Some (f r).
Proof.
  unfold fetchone. intros Hnd Hkey. induction l as [|a l IH]; simpl; [intros []|].
  inversion Hnd as [|? ? Hnotin Hnd']; subst.
  intros [->|Hin] Pr.
  - rewrite Pr. reflexivity.
  - destruct (P a) eqn:Pa; simpl.
    + exfalso. apply Hnotin. rewrite (Hkey a Pa). now apply in_map.
    + now apply IH.
Qed.

Lemma item_condition (item_id game : string) (r : ItemPrices.row) :
  (ItemPrices.item_id r =? item_id) && (ItemPrices.game r =? game) = true
  <-> ItemPrices.item_id r = item_id /\ ItemPrices.game r = game.
Proof. now rewrite andb_true_iff, !String.eqb_eq. Qed.

Lemma select_normal_price_none (d : database) (item_id game : string) :
  select_normal_price d item_id game = None <-> ~ in_catalog d game item_id.
Proof.
  without_collaborators.
  unfold select_normal_price. rewrite fetchone_filter_none. unfold in_catalog. split.
  - intros H (r & Hin & Hi & Hg). specialize (H r Hin).
    assert (Ht : (ItemPrices.item_id r =? item_id) && (ItemPrices.game r =? game) = true)
      by now apply item_condition.
    congruence.
  - intros H r Hin.
    destruct ((ItemPrices.item_id r =? item_id) && (ItemPrices.game r =? game)) eqn:E;
      [|reflexivity].
    exfalso. apply H. exists r. apply item_condition in E. tauto.
Qed.

Lemma select_normal_price_some (d : database) (item_id game : string) (p : REAL) :
  select_normal_price d item_id game = Some p ->
  exists r, In r (tbl_item_prices d)
            /\ ItemPrices.item_id r = item_id /\ ItemPrices.game r = game
            /\ ItemPrices.normal_price r = p.
Proof.
  without_collaborators.
  intros H. apply fetchone_filter_some in H. destruct H as (r & Hin & Hc & Hp).
  apply item_condition in Hc. exists r. tauto.
Qed.

Lemma in_catalog_select (d : database) (item_id game : string) :
  in_catalog d game item_id <-> exists p, select_normal_price d item_id game = Some p.
Proof.
  split.
  - intros H. destruct (select_normal_price d item_id game) as [p|] eqn:E; [eauto|].
    apply select_normal_price_none in E. contradiction.
  - intros (p & E). apply select_normal_price_some in E.
    destruct E as (r & ? & ? & ? & _). exists r. auto.
Qed.

Lemma select_normal_price_row (d : database) (r : ItemPrices.row) :
  NoDup (map ItemPrices.item_id (tbl_item_prices d)) ->
  In r (tbl_item_prices d) ->
  select_normal_price d (ItemPrices.item_id r) (ItemPrices.game r)
  = Some (ItemPrices.normal_price r).
Proof.
  intros Hnd Hin. unfold select_normal_price.
  apply fetchone_filter_key with (key := ItemPrices.item_id); auto.
  - intros x Hx. now apply item_condition in Hx.
  - now apply item_condition.
Qed.

Lemma truthy_some (s : string) : s <> "" -> truthy (Some s) = true.
Proof.
  intros H. unfold truthy. apply String.eqb_neq in H. now rewrite H.
Qed.

Lemma order_exists_in (d : database) (oid : string) :
  order_exists d oid <-> In oid (map Orders.order_id (tbl_orders d)).
Proof.
  unfold order_exists. rewrite in_map_iff. split.
  - intros (r & ? & ?). eauto.
  - intros (r & ? & ?). eauto.
Qed.

(** A run of [buy] that returns a response has inserted one order. *)
Lemma buy_success (w w' : world) (game item_id server_id zone_id : string) (resp : response) :
  buy game item_id server_id zone_id w = (inr resp, w') ->
  exists p qr oid w1 w2,
    select_normal_price (DB w) item_id game = Some p
    /\ generate_qr_code (py_float p) w = (inr qr, w1)
    /\ generate_short_transaction_id w1 = (inr oid, w2)
    /\ ~ order_exists (DB w) oid
    /\ resp = TemplateResponse "deposit.html" (deposit_context (fst qr) oid (py_float p))
    /\ tbl_users (DB w') = tbl_users (DB w)
    /\ tbl_item_prices (DB w') = tbl_item_prices (DB w)
    /\ tbl_orders (DB w') =
         (tbl_orders (DB w)
          ++ [new_order oid game item_id (py_float p) server_id zone_id (snd qr) (clock w 0)])%list.
Proof.
  intros E. pose proof (buy_spec w game item_id server_id zone_id) as H.
  rewrite E in H. inversion H as [ | | | p qr w1 w2 w'' oid Hsel Hqr Ht Hid Hfresh Hdb]; subst.
  exists p, qr, oid, w1, w2. rewrite Hdb. cbn.
  rewrite order_exists_in. repeat split; auto.
Qed.

(** A run of [buy] that raises leaves the database as it was. *)
Lemma buy_failure (w w' : world) (game item_id server_id zone_id : string) (e : exn) :
  buy game item_id server_id zone_id w = (inl e, w') -> DB w' = DB w.
Proof.
  intros E. pose proof (buy_spec w game item_id server_id zone_id) as H.
  rewrite E in H. inversion H; subst; auto.
Qed.


(** ** Creating an order *)

(** C1 (as amended): when the lookup of [buy] finds the price [amount] of
    [(game, item_id)] in the catalog, [generate_qr_code] returns a non-empty
    image [qr_b64] and a non-empty fingerprint [md5], and the identifier [oid]
    drawn next is not the [order_id] of an existing order, then [buy] returns
    the deposit page with that [oid], [oid] matches [[A-Z0-9]{8}], and exactly
    one row was appended to [orders], with [order_id = oid] and
    [status = "UNPAID"]. *)
Theorem buy_creates_unpaid_order
  (w w1 w2 : world) (game item_id server_id zone_id : string)
  (amount : REAL) (qr_b64 md5 oid : string) :
  select_normal_price (DB w) item_id game = Some amount ->
  generate_qr_code (py_float amount) w = (inr (Some qr_b64, Some md5), w1) ->
  qr_b64 <> "" -> md5 <> "" ->
  generate_short_transaction_id w1 = (inr oid, w2) ->
  ~ order_exists (DB w) oid ->
  result_of (buy game item_id server_id zone_id) w
  = inr (TemplateResponse "deposit.html"
           (deposit_context (Some qr_b64) oid (py_float amount)))
  /\ matches_A_Z0_9_8 oid = true
  /\ exists row,
       tbl_orders (DB (world_after (buy game item_id server_id zone_id) w))
       = (tbl_orders (DB w) ++ [row])%list
       /\ Orders.order_id row = oid
       /\ Orders.status row = "UNPAID".
Proof.
  intros Hsel Hqr Hb Hm Hid Hfresh.
  pose proof (buy_spec w game item_id server_id zone_id) as H.
  unfold result_of, world_after.
  destruct (generate_short_transaction_id_run w1) as (oid' & w2' & Eid & _ & _ & _ & Hpat).
  rewrite Hid in Eid. injection Eid as <- <-.
  inversion H as [ Hsel' E
                 | p qr w1' Hsel' Hqr' Ht Hdb E
                 | p qr w1' w2' w' oid' Hsel' Hqr' Ht Hid' Hin Hdb E
                 | p qr w1' w2' w' oid' Hsel' Hqr' Ht Hid' Hnin Hdb E ].
  - congruence.
  - rewrite Hsel in Hsel'. injection Hsel' as <-.
    rewrite Hqr in Hqr'. injection Hqr' as <- <-.
    cbn [fst snd] in Ht. rewrite !truthy_some in Ht by assumption. discriminate.
  - rewrite Hsel in Hsel'. injection Hsel' as <-.
    rewrite Hqr in Hqr'. injection Hqr' as <- <-.
    rewrite Hid in Hid'. injection Hid' as <- <-.
    exfalso. apply Hfresh. now apply order_exists_in.
  - rewrite Hsel in Hsel'. injection Hsel' as <-.
    rewrite Hqr in Hqr'. injection Hqr' as <- <-.
    rewrite Hid in Hid'. injection Hid' as <- <-.
    cbn [fst snd]. split; [reflexivity|]. split; [assumption|].
    rewrite Hdb. cbn. eexists. split; [reflexivity|]. split; reflexivity.
Qed.

(** C2: for a pair [(game, item_id)] that is not in the catalog, [buy] raises
    [HTTPException(404, "Item not found")] and the world, the order store
    included, is left as it was. *)
Theorem buy_unknown_item (w : world) (game item_id server_id zone_id : string) :
  ~ in_catalog (DB w) game item_id ->
  result_of (buy game item_id server_id zone_id) w
  = inl (HTTPException 404 "Item not found")
  /\ world_after (buy game item_id server_id zone_id) w = w.
Proof.
  intros H. apply select_normal_price_none in H.
  unfold result_of, world_after, buy, bind, get_db. rewrite H. split; reflexivity.
Qed.

(** The values [generate_qr_code] returns on an exception make [buy] raise
    [HTTPException(500)] before anything is inserted. *)
Lemma buy_without_qr (w w1 : world) (game item_id server_id zone_id : string) (p : REAL) :
  select_normal_price (DB w) item_id game = Some p ->
  generate_qr_code (py_float p) w = (inr (None, None), w1) ->
  buy game item_id server_id zone_id w
  = (inl (HTTPException 500 "Failed to generate QR"), w1)
  /\ DB w1 = DB w.
Proof.
  intros Hsel Hqr.
  destruct (generate_qr_code_run (py_float p) w) as (bill & w1' & _ & Eqr & Hdb & _).
  rewrite Hqr in Eqr. injection Eqr as _ <-.
  split; [|assumption].
  unfold buy. unfold bind at 1. unfold get_db. rewrite Hsel.
  unfold bind at 1. rewrite Hqr. reflexivity.
Qed.

(** C3: when a step of [generate_qr_code] raises (building the payload,
    making or saving the image, hashing), [generate_qr_code] returns
    [(None, None)]; and whenever it returns [(None, None)] for the price of an
    item in the catalog, [buy] raises [HTTPException(500, "Failed to generate
    QR")] and the database is unchanged: no order row is written. *)
Theorem qr_failure_fails_closed
  (w w1 : world) (game item_id server_id zone_id : string) (amount : REAL) (bill : string) :
  generate_short_transaction_id w = (inr bill, w1) ->
  (qr_step_raises (create_qr_arguments (py_float amount) bill) ->
   generate_qr_code (py_float amount) w = (inr (None, None), w1))
  /\ (select_normal_price (DB w) item_id game = Some amount ->
      generate_qr_code (py_float amount) w = (inr (None, None), w1) ->
      result_of (buy game item_id server_id zone_id) w
      = inl (HTTPException 500 "Failed to generate QR")
      /\ DB (world_after (buy game item_id server_id zone_id) w) = DB w).
Proof.
  intros Hbill. split.
  - intros Hraise. unfold generate_qr_code, bind. rewrite Hbill.
    assert (E : qr_of_payload_request (create_qr_arguments (py_float amount) bill) = None).
    { unfold qr_of_payload_request.
      destruct Hraise as [-> | (payload & -> & [-> | [(img & -> & ->) | Hmd5]])];
        try reflexivity.
      destruct (qrcode_make payload) as [img|]; [|reflexivity].
      destruct (img_save_png img); [|reflexivity].
      now rewrite Hmd5. }
    rewrite E. reflexivity.
  - intros Hsel Hqr.
    destruct (buy_without_qr w w1 game item_id server_id zone_id amount Hsel Hqr) as [E Hdb].
    unfold result_of, world_after. rewrite E. split; [reflexivity | exact Hdb].
Qed.


(** ** Order status *)

Lemma order_status_run (order_id : string) (w : world) :
  order_status order_id w =
  (inr match fetchone
               (map (fun o => (Orders.status o, Orders.payment_response o, Orders.paid_at o))
                    (filter (fun o => Orders.order_id o =? order_id) (tbl_orders (DB w))))
       with
       | None => JSONResponse [("error", JString "not found")] 404
       | Some (r0, r1, r2) =>
           Dict [("status", JString r0);
                 ("payment_response", json_of_text r1);
                 ("paid_at", json_of_text r2)]
       end, w).
Proof.
  unfold order_status, bind, get_db.
  destruct (fetchone _) as [[[r0 r1] r2]|]; reflexivity.
Qed.

Lemma order_status_of_row (w : world) (r : Orders.row) :
  NoDup (map Orders.order_id (tbl_orders (DB w))) ->
  In r (tbl_orders (DB w)) ->
  order_status (Orders.order_id r) w = (inr (Dict (status_body r)), w).
Proof.
  intros Hnd Hin. rewrite order_status_run.
  rewrite fetchone_filter_key with (key := Orders.order_id) (r := r); auto.
  - intros x Hx. now apply String.eqb_eq in Hx.
  - apply String.eqb_refl.
Qed.

Lemma order_status_missing (w : world) (order_id : string) :
  result_of (order_status order_id) w
  = inr (JSONResponse [("error", JString "not found")] 404)
  <-> ~ order_exists (DB w) order_id.
Proof.
  unfold result_of. rewrite order_status_run. cbn [fst].
  destruct (fetchone _) as [[[r0 r1] r2]|] eqn:E.
  - split; [discriminate|]. intros H. exfalso. apply H.
    apply fetchone_filter_some in E. destruct E as (x & Hin & Hx & _).
    apply String.eqb_eq in Hx. exists x. auto.
  - split; [|reflexivity]. intros _ (x & Hin & Hx).
    rewrite fetchone_filter_none in E. specialize (E x Hin).
    apply String.eqb_neq in E. contradiction.
Qed.

Lemma filter_no_match (order_id : string) (l : list Orders.row) :
  ~ In order_id (map Orders.order_id l) ->
  filter (fun o => Orders.order_id o =? order_id) l = [].
Proof.
  induction l as [|a l IH]; simpl; [reflexivity|]. intros H.
  destruct (Orders.order_id a =? order_id) eqn:E.
  - apply String.eqb_eq in E. exfalso. apply H. now left.
  - apply IH. intros Hin. apply H. now right.
Qed.

(** C4: [order_status] answers 404 with body [{"error": "not found"}] exactly
    when no order has that [order_id]; for an order that exists it returns
    the stored [status], [payment_response] and [paid_at]; and for the order a
    successful [buy] has just created it returns [status = "UNPAID"] with
    [payment_response] and [paid_at] null. *)
Theorem order_status_answers (w : world) (order_id : string) :
  (result_of (order_status order_id) w
   = inr (JSONResponse [("error", JString "not found")] 404)
   <-> ~ order_exists (DB w) order_id)
  /\ (forall r,
        NoDup (map Orders.order_id (tbl_orders (DB w))) ->
        In r (tbl_orders (DB w)) -> Orders.order_id r = order_id ->
        result_of (order_status order_id) w = inr (Dict (status_body r)))
  /\ (forall game item_id server_id zone_id qr amount w',
        buy game item_id server_id zone_id w
        = (inr (TemplateResponse "deposit.html" (deposit_context qr order_id amount)), w') ->
        result_of (order_status order_id) w'
        = inr (Dict [("status", JString "UNPAID");
                     ("payment_response", JNull);
                     ("paid_at", JNull)])).
Proof.
  split; [apply order_status_missing|]. split.
  - intros r Hnd Hin <-. unfold result_of. now rewrite order_status_of_row.
  - intros game item_id server_id zone_id qr amount w' Hbuy.
    apply buy_success in Hbuy.
    destruct Hbuy as (p & qr' & oid & w1 & w2 & _ & _ & _ & Hfresh & Hresp & _ & _ & Hdb).
    injection Hresp as _ -> _.
    unfold result_of. rewrite order_status_run, Hdb, filter_app.
    rewrite filter_no_match by (now rewrite <- order_exists_in).
    cbn. rewrite String.eqb_refl. reflexivity.
Qed.

Lemma status_query_columns (order_id : string) (l : list Orders.row) :
  map (fun o => (Orders.status o, Orders.payment_response o, Orders.paid_at o))
      (filter (fun o => Orders.order_id o =? order_id) l)
  = map (fun c => match c with (_, s, p, t) => (s, p, t) end)
        (filter (fun c => match c with (i, _, _, _) => i =? order_id end)
                (map status_columns l)).
Proof.
  induction l as [|a l IH]; simpl; [reflexivity|].
  destruct (Orders.order_id a =? order_id); simpl; now rewrite IH.
Qed.

(** C9: [order_status] takes no caller identity and reads only the columns
    [order_id], [status], [payment_response] and [paid_at]: two worlds whose
    order tables agree on these columns, whatever the [user_id] of the rows
    and whatever the users table, give the same answer; and the stored values
    of any existing order are returned, whoever owns it. *)
Theorem order_status_ignores_owner (w1 w2 : world) (order_id : string) :
  map status_columns (tbl_orders (DB w1)) = map status_columns (tbl_orders (DB w2)) ->
  result_of (order_status order_id) w1 = result_of (order_status order_id) w2
  /\ (forall r,
        NoDup (map Orders.order_id (tbl_orders (DB w1))) ->
        In r (tbl_orders (DB w1)) -> Orders.order_id r = order_id ->
        result_of (order_status order_id) w2 = inr (Dict (status_body r))).
Proof.
  intros Hcols.
  assert (E : result_of (order_status order_id) w1 = result_of (order_status order_id) w2).
  { unfold result_of. rewrite !order_status_run. cbn [fst].
    now rewrite !status_query_columns, Hcols. }
  split; [exact E|].
  intros r Hnd Hin <-. rewrite <- E. unfold result_of. now rewrite order_status_of_row.
Qed.

(** ** Reseller flag *)

Lemma sqlite_int64_range (n : Z) :
  sqlite_int64 n = true <-> (- 2 ^ 63 <= n <= 2 ^ 63 - 1)%Z.
Proof.
  without_collaborators.
  unfold sqlite_int64. rewrite andb_true_iff, !Z.leb_le. tauto.
Qed.

(** C8 (as amended): for a [user_id] that fits a signed 64-bit SQLite
    INTEGER, [is_reseller] raises nothing and changes nothing; it returns
    [True] exactly when a users row with that [user_id] exists and its
    [is_reseller] column is 1, and [False] for every such [user_id] without a
    row. *)
Theorem is_reseller_flag (w : world) (user_id : Z) :
  (- 2 ^ 63 <= user_id <= 2 ^ 63 - 1)%Z ->
  exists b,
    is_reseller user_id w = (inr b, w)
    /\ (NoDup (map Users.user_id (tbl_users (DB w))) ->
        (b = true <->
         exists r, In r (tbl_users (DB w))
                   /\ Users.user_id r = user_id /\ Users.is_reseller r = 1%Z))
    /\ ((forall r, In r (tbl_users (DB w)) -> Users.user_id r <> user_id) -> b = false).
Proof.
  intros Hrange. apply sqlite_int64_range in Hrange.
  unfold is_reseller, bind, get_db. rewrite Hrange. cbn [negb]. unfold ret.
  eexists. split; [reflexivity|].
  destruct (fetchone _) as [flag|] eqn:E.
  - pose proof E as E'. apply fetchone_filter_some in E'.
    destruct E' as (x & Hin & Hx & Hflag). apply Z.eqb_eq in Hx.
    split; [intros Hnd; split|].
    + intros Hb. apply Z.eqb_eq in Hb. exists x. subst. auto.
    + intros (r & Hr & Hid & Hf).
      rewrite fetchone_filter_key with (key := Users.user_id) (r := r) in E; auto.
      * injection E as <-. now apply Z.eqb_eq.
      * intros y Hy. apply Z.eqb_eq in Hy. congruence.
      * now apply Z.eqb_eq.
    + intros Hnone. exfalso. now apply (Hnone x Hin).
  - rewrite fetchone_filter_none in E.
    split; [intros _; split|]; [discriminate| |reflexivity].
    intros (r & Hr & Hid & _). specialize (E r Hr).
    apply Z.eqb_neq in E. contradiction.
Qed.

(** Outside that range the statement cannot be bound: [is_reseller] raises
    [OverflowError], whatever the users table holds, and changes nothing. *)
Lemma is_reseller_out_of_range (w : world) (user_id : Z) :
  (user_id < - 2 ^ 63 \/ 2 ^ 63 - 1 < user_id)%Z ->
  is_reseller user_id w
  = (inl (OverflowError "Python int too large to convert to SQLite INTEGER"), w).
Proof.
  without_collaborators.
  intros Hout. unfold is_reseller, bind, get_db.
  destruct (sqlite_int64 user_id) eqn:E; [|reflexivity].
  apply sqlite_int64_range in E. lia.
Qed.

(** ** Listing orders *)

Lemma string_leb_trans (s1 s2 s3 : string) :
  String.leb s1 s2 = true -> String.leb s2 s3 = true -> String.leb s1 s3 = true.
Proof.
  unfold String.leb. revert s2 s3.
  induction s1 as [|a s1 IH]; intros [|b s2] [|c s3]; simpl; try easy.
  unfold Ascii.compare.
  destruct (N.compare_spec (N_of_ascii a) (N_of_ascii b)) as [E1|L1|G1];
    destruct (N.compare_spec (N_of_ascii b) (N_of_ascii c)) as [E2|L2|G2];
    try discriminate;
    destruct (N.compare_spec (N_of_ascii a) (N_of_ascii c)) as [E3|L3|G3];
    try reflexivity; try lia.
  apply IH.
Qed.

Lemma insert_desc_perm (r : Orders.row) (l : list Orders.row) :
  Permutation (insert_desc r l) (r :: l).
Proof.
  induction l as [|x l IH]; simpl; [reflexivity|].
  destruct (String.leb (Orders.created_at x) (Orders.created_at r)); [reflexivity|].
  rewrite IH. apply perm_swap.
Qed.

Lemma order_by_created_at_desc_perm (l : list Orders.row) :
  Permutation (order_by_created_at_desc l) l.
Proof.
  induction l as [|x l IH]; simpl; [reflexivity|].
  rewrite insert_desc_perm. now constructor.
Qed.

Lemma insert_desc_sorted (r : Orders.row) (l : list Orders.row) :
  rows_newest_first l -> rows_newest_first (insert_desc r l).
Proof.
  unfold rows_newest_first. induction l as [|x l IH]; simpl; intros Hs.
  - constructor; constructor.
  - inversion Hs as [|? ? Hs' Hall]; subst.
    destruct (String.leb (Orders.created_at x) (Orders.created_at r)) eqn:E.
    + constructor; [assumption|]. constructor; [assumption|].
      rewrite Forall_forall in *. intros y Hy.
      apply string_leb_trans with (s2 := Orders.created_at x); auto.
    + constructor; [auto|].
      rewrite Forall_forall in *. intros y Hy.
      apply (Permutation_in _ (insert_desc_perm r l)) in Hy.
      destruct Hy as [<-|Hy]; [|auto].
      destruct (String.leb_total (Orders.created_at x) (Orders.created_at r)); congruence.
Qed.

Lemma order_by_created_at_desc_sorted (l : list Orders.row) :
  rows_newest_first (order_by_created_at_desc l).
Proof.
  induction l as [|x l IH]; simpl; [constructor|]. now apply insert_desc_sorted.
Qed.

Lemma newest_first_summaries (l : list Orders.row) :
  rows_newest_first l -> newest_first (map summary_of l).
Proof.
  unfold rows_newest_first, newest_first.
  induction 1 as [|x l Hs IH Hall]; simpl; constructor; auto.
  rewrite Forall_forall in *. intros y Hy. apply in_map_iff in Hy.
  destruct Hy as (o & <- & Ho). cbn. auto.
Qed.

Lemma orders_run (w : world) :
  orders w =
  (inr (TemplateResponse "orders.html"
          (orders_context
             (map summary_of
                  (order_by_created_at_desc
                     (filter (fun o => Z.eqb (Orders.user_id o) 1) (tbl_orders (DB w))))))),
   w).
Proof. reflexivity. Qed.

(** C7: [orders] answers with the template ["orders.html"] and changes
    nothing.  The rows it lists are the orders of the caller (the demo user,
    [user_id] 1) and only those, each once; every listed entry shows the
    [order_id], [game], [item_id], [amount], [server_id], [zone_id], [status],
    [created_at] and [paid_at] stored in its row; the entries are ordered by
    [created_at] (compared as text, byte by byte) from the greatest to the
    least; and when that user has no order the sequence is empty. *)
Theorem orders_newest_first (w : world) :
  exists rows,
    orders w
    = (inr (TemplateResponse "orders.html"
              (orders_context
                 (map (fun o =>
                         {| s_order_id := Orders.order_id o;
                            s_game := Orders.game o;
                            s_item_id := Orders.item_id o;
                            s_amount := Orders.amount o;
                            s_server_id := Orders.server_id o;
                            s_zone_id := Orders.zone_id o;
                            s_status := Orders.status o;
                            s_created_at := Orders.created_at o;
                            s_paid_at := Orders.paid_at o |})
                      rows))), w)
    /\ Permutation rows
         (filter (fun o => Z.eqb (Orders.user_id o) 1) (tbl_orders (DB w)))
    /\ (forall o, In o rows <-> In o (tbl_orders (DB w)) /\ Orders.user_id o = 1%Z)
    /\ StronglySorted
         (fun a b => String.leb (Orders.created_at b) (Orders.created_at a) = true)
         rows
    /\ ((forall o, In o (tbl_orders (DB w)) -> Orders.user_id o <> 1%Z) -> rows = []).
Proof.
  set (mine := filter (fun o => Z.eqb (Orders.user_id o) 1) (tbl_orders (DB w))).
  exists (order_by_created_at_desc mine).
  split; [apply orders_run|]. split; [apply order_by_created_at_desc_perm|].
  split; [|split].
  - intros o. split.
    + intros Ho. apply (Permutation_in _ (order_by_created_at_desc_perm mine)) in Ho.
      apply filter_In in Ho. destruct Ho as [Ho Hu]. apply Z.eqb_eq in Hu. auto.
    + intros [Ho Hu].
      apply (Permutation_in _ (Permutation_sym (order_by_created_at_desc_perm mine))).
      apply filter_In. split; [assumption | now apply Z.eqb_eq].
  - apply order_by_created_at_desc_sorted.
  - intros Hnone.
    assert (E : mine = []).
    { unfold mine. induction (tbl_orders (DB w)) as [|a l IH]; simpl; [reflexivity|].
      destruct (Z.eqb_spec (Orders.user_id a) 1) as [Ha|Ha].
      - exfalso. apply (Hnone a); [now left | assumption].
      - apply IH. intros o Ho. apply Hnone. now right. }
    rewrite E. reflexivity.
Qed.

(** ** Seeding *)

Lemma init_db_run (w : world) :
  init_db w =
  (inr tt,
   {| DB := {| tbl_users := tbl_users (DB w);
               tbl_item_prices :=
                 executemany_insert_or_ignore_item (tbl_item_prices (DB w)) items;
               tbl_orders := tbl_orders (DB w) |};
      random := random w;
      clock := clock w |}).
Proof. reflexivity. Qed.

Lemma insert_or_ignore_present (t : list ItemPrices.row) (r : ItemPrices.row) :
  In (ItemPrices.item_id r) (map ItemPrices.item_id t) -> insert_or_ignore_item t r = t.
Proof.
  intros H. apply existsb_item_id in H. unfold insert_or_ignore_item. now rewrite H.
Qed.

Lemma insert_or_ignore_absent (t : list ItemPrices.row) (r : ItemPrices.row) :
  ~ In (ItemPrices.item_id r) (map ItemPrices.item_id t) ->
  insert_or_ignore_item t r = (t ++ [r])%list.
Proof.
  intros H. unfold insert_or_ignore_item.
  destruct (existsb _ t) eqn:E; [|reflexivity].
  apply existsb_item_id in E. contradiction.
Qed.

Lemma executemany_noop (t rows : list ItemPrices.row) :
  (forall r, In r rows -> In (ItemPrices.item_id r) (map ItemPrices.item_id t)) ->
  executemany_insert_or_ignore_item t rows = t.
Proof.
  unfold executemany_insert_or_ignore_item.
  induction rows as [|r rows IH]; simpl; intros H; [reflexivity|].
  rewrite insert_or_ignore_present by (apply H; now left).
  apply IH. intros r' Hr'. apply H. now right.
Qed.

(** [executemany] keeps the table as a prefix and appends only rows whose key
    was absent, so keys stay unique. *)
Lemma executemany_appends (rows t : list ItemPrices.row) :
  exists added,
    executemany_insert_or_ignore_item t rows = (t ++ added)%list
    /\ (forall r, In r added ->
          In r rows /\ ~ In (ItemPrices.item_id r) (map ItemPrices.item_id t))
    /\ (NoDup (map ItemPrices.item_id t) ->
        NoDup (map ItemPrices.item_id (t ++ added)))
    /\ (forall r, In r rows ->
          In (ItemPrices.item_id r) (map ItemPrices.item_id (t ++ added))).
Proof.
  unfold executemany_insert_or_ignore_item. revert t.
  induction rows as [|r rows IH]; intros t; simpl.
  - exists []. rewrite app_nil_r. repeat split; auto; intros ? [].
  - destruct (in_dec string_dec (ItemPrices.item_id r) (map ItemPrices.item_id t)) as [Hin|Hnin].
    + rewrite insert_or_ignore_present by assumption.
      destruct (IH t) as (added & E & Hadded & Hnd & Hall).
      exists added. split; [exact E|]. split; [|split].
      * intros r' Hr'. destruct (Hadded r' Hr'). split; [now right | assumption].
      * exact Hnd.
      * intros r' [<-|Hr']; [|now apply Hall].
        rewrite map_app. apply in_or_app. now left.
    + rewrite insert_or_ignore_absent by assumption.
      destruct (IH (t ++ [r])%list) as (added & E & Hadded & Hnd & Hall).
      exists (r :: added). rewrite E, <- app_assoc. simpl.
      split; [reflexivity|]. split; [|split].
      * intros r' [<-|Hr']; [split; [now left | assumption]|].
        destruct (Hadded r' Hr') as [H1 H2]. split; [now right|].
        intros H. apply H2. rewrite map_app. apply in_or_app. now left.
      * intros Ht.
        replace (t ++ r :: added)%list with ((t ++ [r]) ++ added)%list
          by (now rewrite <- app_assoc).
        apply Hnd. rewrite map_app. simpl.
        apply NoDup_app; [assumption | repeat constructor; intros [] | ].
        intros x Hx [<-|[]]. contradiction.
      * intros r' Hr'.
        replace (t ++ r :: added)%list with ((t ++ [r]) ++ added)%list
          by (now rewrite <- app_assoc).
        destruct Hr' as [<-|Hr']; [|now apply Hall].
        rewrite !map_app. apply in_or_app. left. apply in_or_app. right. now left.
Qed.

Lemma init_db_seeded_noop (w : world) :
  seeded (DB w) -> DB (world_after init_db w) = DB w.
Proof.
  intros H. unfold world_after. rewrite init_db_run. cbn [snd DB].
  rewrite executemany_noop by exact H. now destruct (DB w).
Qed.

(** C6: the first run of [init_db] keeps every row of [item_prices] where it
    is and appends only default items whose [item_id] had no row, so it makes
    no duplicate key; it touches neither [users] nor [orders]; after it every
    default item has a row; and in any state where every default item has a
    row (the state the first run leaves, also after prices were edited), any
    number [n] of further runs leave the database exactly as it is. *)
Theorem init_db_idempotent (w : world) (n : nat) :
  (exists added,
     tbl_item_prices (DB (world_after init_db w))
     = (tbl_item_prices (DB w) ++ added)%list
     /\ (forall r, In r added ->
           In r items
           /\ ~ In (ItemPrices.item_id r) (map ItemPrices.item_id (tbl_item_prices (DB w)))))
  /\ tbl_users (DB (world_after init_db w)) = tbl_users (DB w)
  /\ tbl_orders (DB (world_after init_db w)) = tbl_orders (DB w)
  /\ (NoDup (map ItemPrices.item_id (tbl_item_prices (DB w))) ->
      NoDup (map ItemPrices.item_id (tbl_item_prices (DB (world_after init_db w)))))
  /\ seeded (DB (world_after init_db w))
  /\ DB (Nat.iter n (world_after init_db) (world_after init_db w))
     = DB (world_after init_db w)
  /\ (forall w', seeded (DB w') ->
        DB (Nat.iter n (world_after init_db) w') = DB w').
Proof.
  assert (Hiter : forall w', seeded (DB w') ->
                    DB (Nat.iter n (world_after init_db) w') = DB w').
  { intros w' Hs. induction n as [|n IH]; [reflexivity|].
    rewrite Nat.iter_succ, init_db_seeded_noop; [exact IH|].
    now rewrite IH. }
  assert (Hdb : DB (world_after init_db w)
                = {| tbl_users := tbl_users (DB w);
                     tbl_item_prices :=
                       executemany_insert_or_ignore_item (tbl_item_prices (DB w)) items;
                     tbl_orders := tbl_orders (DB w) |}) by reflexivity.
  destruct (executemany_appends items (tbl_item_prices (DB w)))
    as (added & E & Hadded & Hnd & Hall).
  assert (Hseeded : seeded (DB (world_after init_db w))).
  { rewrite Hdb. unfold seeded. intros r Hr. cbn [tbl_item_prices]. rewrite E.
    now apply Hall. }
  split; [|split; [|split; [|split; [|split; [|split]]]]].
  - rewrite Hdb. cbn [tbl_item_prices]. exists added. split; [exact E | exact Hadded].
  - now rewrite Hdb.
  - now rewrite Hdb.
  - rewrite Hdb. cbn [tbl_item_prices]. rewrite E. exact Hnd.
  - exact Hseeded.
  - apply Hiter, Hseeded.
  - exact Hiter.
Qed.

(** ** The charged amount *)

(** C5: for an item row [r] of the catalog, a run of [buy] for that item that
    returns a response shows the amount [normal_price r] and has appended an
    order row whose [amount] is [normal_price r], the very binary64 value
    stored in the catalog, whatever [reseller_price r] is; and the listing of
    orders read back from the store afterwards shows that order with the same
    amount. *)
Theorem buy_charges_normal_price
  (w w' : world) (server_id zone_id : string) (r : ItemPrices.row) (resp : response) :
  NoDup (map ItemPrices.item_id (tbl_item_prices (DB w))) ->
  In r (tbl_item_prices (DB w)) ->
  buy (ItemPrices.game r) (ItemPrices.item_id r) server_id zone_id w = (inr resp, w') ->
  exists qr oid row,
    resp = TemplateResponse "deposit.html"
             (deposit_context qr oid (ItemPrices.normal_price r))
    /\ tbl_orders (DB w') = (tbl_orders (DB w) ++ [row])%list
    /\ Orders.order_id row = oid
    /\ Orders.amount row = ItemPrices.normal_price r
    /\ exists summaries s,
         orders w' = (inr (TemplateResponse "orders.html" (orders_context summaries)), w')
         /\ In s summaries
         /\ s_order_id s = oid
         /\ s_amount s = ItemPrices.normal_price r.
Proof.
  intros Hnd Hin Hbuy. apply buy_success in Hbuy.
  destruct Hbuy as (p & qr & oid & w1 & w2 & Hsel & _ & _ & _ & Hresp & _ & _ & Hdb).
  rewrite (select_normal_price_row _ _ Hnd Hin) in Hsel. injection Hsel as <-.
  unfold py_float in *.
  set (row := new_order oid (ItemPrices.game r) (ItemPrices.item_id r)
                (ItemPrices.normal_price r) server_id zone_id (snd qr) (clock w 0)) in *.
  exists (fst qr), oid, row. split; [exact Hresp|]. split; [exact Hdb|].
  split; [reflexivity|]. split; [reflexivity|].
  eexists. exists (summary_of row).
  split; [apply orders_run|]. split; [|split; reflexivity].
  apply in_map.
  apply (Permutation_in _ (Permutation_sym (order_by_created_at_desc_perm _))).
  apply filter_In. split; [|reflexivity].
  rewrite Hdb. apply in_or_app. right. now left.
Qed.

(** ** What the handlers change *)

Lemma home_run (w : world) : exists resp, home w = (inr resp, w).
Proof. eexists. reflexivity. Qed.

(** C10: a handler never changes [users] or [item_prices]; a [buy] that
    returns a response appends exactly one row to [orders] and keeps the rows
    that were there; every other run ([home], [order_status], [orders], and a
    [buy] that raises) leaves [orders] as it was. *)
Theorem handlers_frame (w : world) (req : request) :
  tbl_users (DB (world_after (handle req) w)) = tbl_users (DB w)
  /\ tbl_item_prices (DB (world_after (handle req) w)) = tbl_item_prices (DB w)
  /\ ((exists game item_id server_id zone_id resp row,
         req = POST_buy game item_id server_id zone_id
         /\ result_of (handle req) w = inr resp
         /\ tbl_orders (DB (world_after (handle req) w))
            = (tbl_orders (DB w) ++ [row])%list)
      \/ ((forall resp, result_of (handle req) w = inr resp ->
             forall game item_id server_id zone_id,
               req <> POST_buy game item_id server_id zone_id)
          /\ tbl_orders (DB (world_after (handle req) w)) = tbl_orders (DB w))).
Proof.
  unfold result_of, world_after. destruct req as [|game item_id server_id zone_id|order_id|]; cbn [handle].
  - destruct (home_run w) as (resp & ->). cbn [fst snd].
    split; [reflexivity|]. split; [reflexivity|]. right. split; [discriminate | reflexivity].
  - destruct (buy game item_id server_id zone_id w) as [[e|resp] w'] eqn:E; cbn [fst snd].
    + apply buy_failure in E. rewrite E.
      split; [reflexivity|]. split; [reflexivity|]. right. split; [discriminate | reflexivity].
    + apply buy_success in E.
      destruct E as (p & qr & oid & w1 & w2 & _ & _ & _ & _ & _ & Hu & Hi & Ho).
      split; [exact Hu|]. split; [exact Hi|]. left.
      exists game, item_id, server_id, zone_id, resp. eexists.
      split; [reflexivity|]. split; [reflexivity | exact Ho].
  - rewrite order_status_run. cbn [fst snd].
    split; [reflexivity|]. split; [reflexivity|]. right. split; [discriminate | reflexivity].
  - rewrite orders_run. cbn [fst snd].
    split; [reflexivity|]. split; [reflexivity|]. right. split; [discriminate | reflexivity].
Qed.


(** ** The primary keys stay unique *)

Lemma init_db_preserves_pk_unique (w : world) :
  pk_unique (DB w) -> pk_unique (DB (world_after init_db w)).
Proof.
  intros [Hu Hi Ho]. unfold world_after. rewrite init_db_run. cbn [snd DB].
  destruct (executemany_appends items (tbl_item_prices (DB w)))
    as (added & E & _ & Hnd & _).
  constructor; cbn [tbl_users tbl_item_prices tbl_orders]; auto.
  rewrite E. auto.
Qed.

Lemma handle_preserves_pk_unique (w : world) (req : request) :
  pk_unique (DB w) -> pk_unique (DB (world_after (handle req) w)).
Proof.
  intros Hpk. unfold world_after.
  destruct req as [|game item_id server_id zone_id|order_id|]; cbn [handle].
  - destruct (home_run w) as (resp & ->). exact Hpk.
  - destruct (buy game item_id server_id zone_id w) as [[e|resp] w'] eqn:E; cbn [snd].
    + apply buy_failure in E. now rewrite E.
    + apply buy_success in E.
      destruct E as (p & qr & oid & w1 & w2 & _ & _ & _ & Hfresh & _ & Hu & Hi & Ho).
      destruct Hpk as [Pu Pi Po]. constructor; [now rewrite Hu | now rewrite Hi |].
      rewrite Ho, map_app. cbn [map new_order Orders.order_id].
      apply NoDup_app; [assumption | repeat constructor; intros [] |].
      intros x Hx [<-|[]]. apply Hfresh. now apply order_exists_in.
  - rewrite order_status_run. exact Hpk.
  - rewrite orders_run. exact Hpk.
Qed.


(** * Further properties of the helpers and handlers *)

(** ** Transaction identifiers *)

Lemma choices_drawn (population : list ascii) (k : nat) (w : world) :
  fst (choices population k w)
  = inr (map (fun i => nth (random w i mod List.length population) population "000"%char)
             (seq 0 k)).
Proof.
  revert w. induction k as [|k IH]; intros w; [reflexivity|].
  cbn [choices]. unfold bind at 1, random_below at 1.
  set (w1 := {| DB := DB w; random := fun i => random w (S i); clock := clock w |}).
  specialize (IH w1). unfold bind at 1.
  destruct (choices population k w1) as [[e|cs] w'] eqn:E; cbn [fst] in IH.
  - discriminate.
  - injection IH as ->. unfold ret. cbn [fst seq map].
    rewrite <- seq_shift, map_map. reflexivity.
Qed.

(** X1: [generate_short_transaction_id] never raises.  Its result is the
    string of the eight characters of [A-Z0-9] at the next eight indices drawn
    from the generator, so it matches [[A-Z0-9]{8}]; the call uses up exactly
    those eight draws and touches neither the database nor the clock. *)
Theorem generate_short_transaction_id_draws (w : world) :
  exists s w',
    generate_short_transaction_id w = (inr s, w')
    /\ s = string_of_list_ascii
             (map (fun i => nth (random w i mod 36)
                              (list_ascii_of_string (ascii_uppercase ++ digits))
                              "000"%char)
                  (seq 0 8))
    /\ matches_A_Z0_9_8 s = true
    /\ DB w' = DB w /\ clock w' = clock w
    /\ (forall i, random w' i = random w (8 + i)).
Proof.
  destruct (generate_short_transaction_id_run w) as (s & w' & E & Hdb & Hclk & Hrnd & Hpat).
  exists s, w'. split; [exact E|]. split; [|auto].
  pose proof (choices_drawn (list_ascii_of_string (ascii_uppercase ++ digits)) 8 w) as Hd.
  unfold generate_short_transaction_id, bind in E.
  destruct (choices (list_ascii_of_string (ascii_uppercase ++ digits)) 8 w)
    as [[e|cs] w''] eqn:Ec; [discriminate|].
  cbn [fst] in Hd. injection Hd as ->. unfold ret in E. injection E as <- _.
  reflexivity.
Qed.

Lemma pattern_in_alphabet (c : ascii) :
  is_upper_or_digit c = true ->
  In c (list_ascii_of_string (ascii_uppercase ++ digits)).
Proof.
  intros H.
  assert (Hex : existsb (Ascii.eqb c) (list_ascii_of_string (ascii_uppercase ++ digits)) = true).
  { revert H. destruct c as [[] [] [] [] [] [] [] []]; vm_compute; intros H; exact H. }
  apply existsb_exists in Hex. destruct Hex as (x & Hin & Hx).
  apply Ascii.eqb_eq in Hx. now subst.
Qed.

Lemma index_in_spec (c d : ascii) (l : list ascii) :
  In c l -> index_in c l < List.length l /\ nth (index_in c l) l d = c.
Proof.
  induction l as [|x l IH]; simpl; [intros []|].
  intros Hin. destruct (Ascii.eqb_spec x c) as [->|Hne].
  - split; [lia | reflexivity].
  - destruct Hin as [Hx|Hin]; [contradiction|].
    destruct (IH Hin). split; [lia | assumption].
Qed.

Lemma map_nth_seq (d : ascii) (l : list ascii) :
  map (fun i => nth i l d) (seq 0 (List.length l)) = l.
Proof.
  induction l as [|x l IH]; [reflexivity|].
  cbn [List.length seq map nth]. rewrite <- seq_shift, map_map. cbn [nth].
  now rewrite IH.
Qed.

(** X2: every string that matches [[A-Z0-9]{8}] is an identifier that
    [generate_short_transaction_id] returns for some state of the generator:
    the identifiers are exactly the strings of the pattern. *)
Theorem every_matching_id_is_drawn (s : string) (w : world) :
  matches_A_Z0_9_8 s = true ->
  exists draws,
    result_of generate_short_transaction_id
      {| DB := DB w; random := draws; clock := clock w |}
    = inr s.
Proof.
  unfold matches_A_Z0_9_8. intros H. apply andb_true_iff in H. destruct H as [Hlen Hall].
  apply Nat.eqb_eq in Hlen. rewrite forallb_forall in Hall.
  set (alphabet := list_ascii_of_string (ascii_uppercase ++ digits)) in *.
  set (cs := list_ascii_of_string s) in *.
  assert (Hcs : List.length cs = 8).
  { rewrite <- Hlen. unfold cs. clear. induction s; simpl; congruence. }
  exists (fun i => index_in (nth i cs "000"%char) alphabet).
  set (w0 := {| DB := DB w;
                random := fun i => index_in (nth i cs "000"%char) alphabet;
                clock := clock w |}).
  destruct (generate_short_transaction_id_draws w0) as (s' & w' & E & Hs & _).
  unfold result_of. rewrite E. cbn [fst]. f_equal. rewrite Hs.
  rewrite <- (string_of_list_ascii_of_string s). f_equal. fold cs.
  rewrite <- (map_nth_seq "000"%char cs). rewrite Hcs.
  apply map_ext_in. intros i Hi. apply in_seq in Hi. cbn [random w0].
  assert (Hin : In (nth i cs "000"%char) alphabet).
  { apply pattern_in_alphabet, Hall, nth_In. lia. }
  destruct (index_in_spec _ "000"%char _ Hin) as [Hlt Hnth].
  change (List.length alphabet) with 36 in Hlt.
  fold alphabet. rewrite Nat.mod_small by exact Hlt. exact Hnth.
Qed.

(** ** QR generation *)

(** X3: [generate_qr_code] never raises and returns all or nothing: either
    some step raised and the result is [(None, None)], or every step returned
    and the result is the base64 text of the PNG of the payload together with
    the MD5 of that same payload.  The request it sends carries the amount it
    was given and a bill number matching [[A-Z0-9]{8}]; the call uses up the
    draws of that bill number and leaves the database and the clock alone. *)
Theorem generate_qr_code_all_or_nothing (amount : REAL) (w : world) :
  exists bill w',
    generate_short_transaction_id w = (inr bill, w')
    /\ matches_A_Z0_9_8 bill = true
    /\ qr_amount (create_qr_arguments amount bill) = amount
    /\ bill_number (create_qr_arguments amount bill) = bill
    /\ DB w' = DB w /\ clock w' = clock w
    /\ ((qr_step_raises (create_qr_arguments amount bill)
         /\ generate_qr_code amount w = (inr (None, None), w'))
        \/ (exists qr_payload img buf md5_hash,
              khqr_create_qr (create_qr_arguments amount bill) = Some qr_payload
              /\ qrcode_make qr_payload = Some img
              /\ img_save_png img = Some buf
              /\ khqr_generate_md5 qr_payload = Some md5_hash
              /\ generate_qr_code amount w
                 = (inr (Some (b64encode buf), Some md5_hash), w'))).
Proof using Type*.
  destruct (generate_short_transaction_id_run w) as (bill & w' & E & Hdb & Hclk & _ & Hpat).
  exists bill, w'. split; [exact E|]. split; [exact Hpat|].
  split; [reflexivity|]. split; [reflexivity|]. split; [exact Hdb|]. split; [exact Hclk|].
  unfold generate_qr_code, bind. rewrite E. unfold qr_step_raises, qr_of_payload_request.
  destruct (khqr_create_qr (create_qr_arguments amount bill)) as [payload|];
    [|left; split; [left; reflexivity | reflexivity]].
  destruct (qrcode_make payload) as [img|] eqn:Eimg;
    [|left; split; [right; exists payload; auto | reflexivity]].
  destruct (img_save_png img) as [buf|] eqn:Ebuf;
    [|left; split; [right; exists payload; split; [reflexivity|]; right; left; eauto
                   | reflexivity]].
  destruct (khqr_generate_md5 payload) as [md5_hash|] eqn:Emd5;
    [|left; split; [right; exists payload; auto | reflexivity]].
  right. exists payload, img, buf, md5_hash. auto.
Qed.


(** ** The catalog page *)

Lemma dict_set_present {V : Type} (d : dict V) (k : string) (v : V) :
  In k (map fst d) -> map fst (dict_set d k v) = map fst d.
Proof.
  induction d as [|[k' v'] d IH]; simpl; [intros []|].
  destruct (String.eqb_spec k' k) as [->|Hne]; [reflexivity|].
  intros [Hk|Hin]; [contradiction|]. simpl. now rewrite IH.
Qed.

Lemma dict_set_absent {V : Type} (d : dict V) (k : string) (v : V) :
  ~ In k (map fst d) -> dict_set d k v = (d ++ [(k, v)])%list.
Proof.
  without_collaborators.
  induction d as [|[k' v'] d IH]; simpl; [reflexivity|].
  intros Hnin. destruct (String.eqb_spec k' k) as [->|Hne]; [tauto|].
  rewrite IH; [reflexivity | tauto].
Qed.

Lemma dict_set_keys {V : Type} (d : dict V) (k : string) (v : V) :
  (NoDup (map fst d) -> NoDup (map fst (dict_set d k v)))
  /\ (forall k', In k' (map fst (dict_set d k v)) <-> In k' (map fst d) \/ k' = k).
Proof.
  without_collaborators.
  destruct (in_dec string_dec k (map fst d)) as [Hin|Hnin].
  - rewrite dict_set_present by assumption. split; [auto|].
    intros k'. split; [auto|]. intros [H| ->]; assumption.
  - rewrite dict_set_absent by assumption. rewrite map_app. cbn [map fst]. split.
    + intros Hnd. apply NoDup_app; [assumption | repeat constructor; intros [] |].
      intros x Hx [<-|[]]. contradiction.
    + intros k'. rewrite in_app_iff. cbn [In]. intuition auto.
Qed.

Lemma get_item_prices_run (game : string) (w : world) :
  get_item_prices game w =
  (inr (fold_left (fun acc r => dict_set acc (fst r) (snd r))
          (map price_entry
               (filter (fun r => ItemPrices.game r =? game) (tbl_item_prices (DB w))))
          []), w).
Proof.
  unfold get_item_prices, bind, get_db, ret, fetchall. f_equal. f_equal.
  generalize (@nil (string * price_pair)).
  induction (filter (fun r => ItemPrices.game r =? game) (tbl_item_prices (DB w)))
    as [|r l IH]; intros acc; [reflexivity|].
  cbn [map fold_left]. rewrite IH. reflexivity.
Qed.

Lemma fold_dict_set_keys {V : Type} (es : list (string * V)) (acc : dict V) :
  (NoDup (map fst acc) ->
   NoDup (map fst (fold_left (fun a e => dict_set a (fst e) (snd e)) es acc)))
  /\ (forall k, In k (map fst (fold_left (fun a e => dict_set a (fst e) (snd e)) es acc))
                <-> In k (map fst acc) \/ In k (map fst es)).
Proof.
  without_collaborators.
  revert acc. induction es as [|[k v] es IH]; intros acc; cbn [fold_left map fst snd].
  - split; [auto|]. intros k. cbn [In]. tauto.
  - destruct (IH (dict_set acc k v)) as [Hnd Hin].
    destruct (dict_set_keys acc k v) as [Hnd' Hin']. split.
    + auto.
    + intros k'. rewrite Hin, Hin'. cbn [In]. intuition auto.
Qed.

Lemma fold_dict_set_unique {V : Type} (es : list (string * V)) (acc : dict V) :
  NoDup (map fst acc ++ map fst es) ->
  fold_left (fun a e => dict_set a (fst e) (snd e)) es acc = (acc ++ es)%list.
Proof.
  revert acc. induction es as [|[k v] es IH]; intros acc Hnd; cbn [fold_left fst snd].
  - now rewrite app_nil_r.
  - cbn [map fst] in Hnd.
    rewrite dict_set_absent.
    + rewrite IH.
      * now rewrite <- app_assoc.
      * rewrite map_app. cbn [map fst]. now rewrite <- app_assoc.
    + intros Hin. apply NoDup_remove_2 in Hnd. apply Hnd. apply in_or_app. now left.
Qed.

Lemma filter_game_keys_unique (game : string) (t : list ItemPrices.row) :
  NoDup (map ItemPrices.item_id t) ->
  NoDup (map fst (map price_entry (filter (fun r => ItemPrices.game r =? game) t))).
Proof.
  without_collaborators.
  rewrite map_map. cbn [price_entry fst].
  induction t as [|r t IH]; simpl; intros Hnd; [constructor|].
  inversion Hnd as [|? ? Hnin Hnd']; subst.
  destruct (ItemPrices.game r =? game); [|auto].
  simpl. constructor; [|auto].
  intros Hin. apply Hnin. apply in_map_iff in Hin. destruct Hin as (x & Hx & Hin).
  apply filter_In in Hin. rewrite <- Hx. apply in_map. tauto.
Qed.

(** X4: [get_item_prices] never raises and changes nothing.  The keys of the
    mapping it returns are pairwise different and are exactly the [item_id]s
    of the rows of that game, so the mapping is empty when the game has no
    item. *)
Theorem get_item_prices_keys (w : world) (game : string) :
  exists d,
    get_item_prices game w = (inr d, w)
    /\ NoDup (map fst d)
    /\ (forall k, In k (map fst d) <->
                  exists r, In r (tbl_item_prices (DB w))
                            /\ ItemPrices.game r = game /\ ItemPrices.item_id r = k)
    /\ ((forall r, In r (tbl_item_prices (DB w)) -> ItemPrices.game r <> game) -> d = []).
Proof.
  eexists. split; [apply get_item_prices_run|].
  set (rows := filter (fun r => ItemPrices.game r =? game) (tbl_item_prices (DB w))).
  destruct (fold_dict_set_keys (map price_entry rows) []) as [Hnd Hin].
  split; [apply Hnd; constructor|]. split.
  - intros k. rewrite Hin. cbn [map In]. rewrite map_map. cbn [price_entry fst].
    rewrite in_map_iff. unfold rows. split.
    + intros [[]|(r & Hk & Hr)]. apply filter_In in Hr. destruct Hr as [Hr Hg].
      apply String.eqb_eq in Hg. eauto.
    + intros (r & Hr & Hg & Hk). right. exists r. split; [assumption|].
      apply filter_In. split; [assumption|]. now apply String.eqb_eq.
  - intros Hnone.
    assert (E : forall l, (forall r, In r l -> ItemPrices.game r <> game) ->
                          filter (fun r => ItemPrices.game r =? game) l = []).
    { induction l as [|a l IH]; simpl; intros Hl; [reflexivity|].
      destruct (String.eqb_spec (ItemPrices.game a) game) as [Ha|Ha].
      - exfalso. apply (Hl a); [now left | assumption].
      - apply IH. intros r Hr. apply Hl. now right. }
    unfold rows. rewrite (E _ Hnone). reflexivity.
Qed.

(** X5: when the [item_id]s of [item_prices] are pairwise different (the
    primary key), [get_item_prices] returns one entry per row of that game,
    in the order of the table, holding the row's [normal_price] under
    ["normal"] and its [reseller_price] under ["reseller"]. *)
Theorem get_item_prices_rows (w : world) (game : string) :
  NoDup (map ItemPrices.item_id (tbl_item_prices (DB w))) ->
  get_item_prices game w
  = (inr (map price_entry
              (filter (fun r => ItemPrices.game r =? game) (tbl_item_prices (DB w)))),
     w).
Proof.
  intros Hnd. rewrite get_item_prices_run.
  rewrite fold_dict_set_unique; [reflexivity|].
  cbn [map app]. now apply filter_game_keys_unique.
Qed.

Lemma select_normal_price_iff (d : database) (item_id game : string) (p : REAL) :
  NoDup (map ItemPrices.item_id (tbl_item_prices d)) ->
  (select_normal_price d item_id game = Some p
   <-> exists r, In r (tbl_item_prices d)
                 /\ ItemPrices.item_id r = item_id /\ ItemPrices.game r = game
                 /\ ItemPrices.normal_price r = p).
Proof.
  without_collaborators.
  intros Hnd. split; [apply select_normal_price_some|].
  intros (r & Hin & <- & <- & <-). now apply select_normal_price_row.
Qed.

Lemma listed_iff_selected (d : database) (game item_id : string) (p : REAL) :
  NoDup (map ItemPrices.item_id (tbl_item_prices d)) ->
  ((exists pp,
      In (item_id, pp)
         (map price_entry (filter (fun r => ItemPrices.game r =? game) (tbl_item_prices d)))
      /\ normal pp = p)
   <-> select_normal_price d item_id game = Some p).
Proof.
  without_collaborators.
  intros Hnd. rewrite select_normal_price_iff by assumption. split.
  - intros (pp & Hin & Hp). apply in_map_iff in Hin. destruct Hin as (r & Hr & Hin).
    apply filter_In in Hin. destruct Hin as [Hin Hg]. apply String.eqb_eq in Hg.
    unfold price_entry in Hr. injection Hr as Hid Hpp. subst pp. cbn in Hp.
    exists r. auto.
  - intros (r & Hin & Hid & Hg & Hp). exists (snd (price_entry r)). split.
    + apply in_map_iff. exists r. split; [unfold price_entry; cbn; now rewrite Hid|].
      apply filter_In. split; [assumption|]. now apply String.eqb_eq.
    + exact Hp.
Qed.

(** X6: [home] never raises and changes nothing, and, with the primary key on
    [item_id], the prices on the catalog page are the prices [buy] charges:
    an item is listed under MLBB (under FF) with normal price [p] exactly when
    the price lookup of [buy] for that item and game finds [p]. *)
Theorem home_lists_charged_prices (w : world) :
  NoDup (map ItemPrices.item_id (tbl_item_prices (DB w))) ->
  exists ml_items ff_items reseller,
    home w = (inr (TemplateResponse "mlbb.html"
                     (mlbb_context ml_items ff_items reseller)), w)
    /\ (forall item_id p,
          (exists pp, In (item_id, pp) ml_items /\ normal pp = p)
          <-> select_normal_price (DB w) item_id "MLBB" = Some p)
    /\ (forall item_id p,
          (exists pp, In (item_id, pp) ff_items /\ normal pp = p)
          <-> select_normal_price (DB w) item_id "FF" = Some p).
Proof.
  intros Hnd.
  pose proof (get_item_prices_run "MLBB" w) as Eml.
  pose proof (get_item_prices_run "FF" w) as Eff.
  rewrite fold_dict_set_unique in Eml
    by (cbn [map app]; now apply filter_game_keys_unique).
  rewrite fold_dict_set_unique in Eff
    by (cbn [map app]; now apply filter_game_keys_unique).
  cbn [app] in Eml, Eff.
  eexists. eexists. eexists. split.
  - unfold home. unfold bind at 1. rewrite Eml. unfold bind at 1. rewrite Eff.
    reflexivity.
  - split; intros item_id p; now apply listed_iff_selected.
Qed.


(** ** More on [buy] *)

Lemma truthy_inv (v : option string) :
  truthy v = true -> exists s, v = Some s /\ s <> "".
Proof.
  without_collaborators.
  destruct v as [s|]; simpl; [|discriminate].
  intros H. exists s. split; [reflexivity|].
  apply String.eqb_neq. now destruct (s =? "").
Qed.

Lemma both_truthy (qr : option string * option string) :
  negb (truthy (fst qr)) || negb (truthy (snd qr)) = false ->
  truthy (fst qr) = true /\ truthy (snd qr) = true.
Proof.
  without_collaborators.
  intros H. apply orb_false_iff in H. destruct H as [H1 H2].
  apply negb_false_iff in H1, H2. auto.
Qed.

(** X7: a [buy] that returns a response has stored the whole order: the row
    appended to [orders] holds the generated [order_id], [user_id] 1, the
    [game], [item_id], [server_id] and [zone_id] of the form, the price found
    in the catalog, the fingerprint that [generate_qr_code] returned, status
    ["UNPAID"], the clock reading as [created_at], and NULL in
    [payment_response] and [paid_at]; the page shows the image that
    [generate_qr_code] returned, and image and fingerprint are not empty. *)
Theorem buy_persists_the_order
  (w w' : world) (game item_id server_id zone_id : string) (resp : response) :
  buy game item_id server_id zone_id w = (inr resp, w') ->
  exists qr_b64 md5 oid amount,
    resp = TemplateResponse "deposit.html" (deposit_context (Some qr_b64) oid amount)
    /\ qr_b64 <> "" /\ md5 <> ""
    /\ select_normal_price (DB w) item_id game = Some amount
    /\ result_of (generate_qr_code amount) w = inr (Some qr_b64, Some md5)
    /\ tbl_orders (DB w')
       = (tbl_orders (DB w)
          ++ [ {| Orders.order_id := oid;
                  Orders.user_id := 1;
                  Orders.game := game;
                  Orders.item_id := item_id;
                  Orders.amount := amount;
                  Orders.server_id := server_id;
                  Orders.zone_id := zone_id;
                  Orders.md5 := Some md5;
                  Orders.status := "UNPAID";
                  Orders.payment_response := None;
                  Orders.created_at := clock w 0;
                  Orders.paid_at := None |} ])%list.
Proof.
  intros E. pose proof (buy_spec w game item_id server_id zone_id) as H.
  rewrite E in H. inversion H as [ | | | p qr w1 w2 w'' oid Hsel Hqr Ht Hid Hfresh Hdb]; subst.
  destruct (both_truthy _ Ht) as [Ht1 Ht2].
  destruct qr as [q m]. cbn [fst snd] in *.
  destruct (truthy_inv _ Ht1) as (qr_b64 & -> & Hq).
  destruct (truthy_inv _ Ht2) as (md5 & -> & Hm).
  exists qr_b64, md5, oid, p. unfold py_float in *.
  split; [reflexivity|]. split; [exact Hq|]. split; [exact Hm|]. split; [exact Hsel|].
  split; [unfold result_of; now rewrite Hqr|].
  rewrite Hdb. reflexivity.
Qed.

(** X8: each exception [buy] raises by itself tells its cause.  When [buy]
    raises [HTTPException] with status 404, the detail is ["Item not found"],
    the pair is not in the catalog and the world is as it was.  When it
    raises [HTTPException] with status 500, the detail is ["Failed to generate
    QR"], the pair is in the catalog and [generate_qr_code] returned a missing
    or empty image or fingerprint for its price.  When it raises
    [sqlite3.IntegrityError], the pair is in the catalog, QR generation
    returned an image and a fingerprint, and the identifier drawn for the
    order is the [order_id] of an existing order.  In the last two cases the
    database is as it was. *)
Theorem buy_exception_causes
  (w w' : world) (game item_id server_id zone_id : string) (e : exn) :
  buy game item_id server_id zone_id w = (inl e, w') ->
  (forall detail,
     e = HTTPException 404 detail ->
     detail = "Item not found" /\ ~ in_catalog (DB w) game item_id /\ w' = w)
  /\ (forall detail,
        e = HTTPException 500 detail ->
        detail = "Failed to generate QR"
        /\ DB w' = DB w
        /\ exists amount qr,
             select_normal_price (DB w) item_id game = Some amount
             /\ result_of (generate_qr_code (py_float amount)) w = inr qr
             /\ (truthy (fst qr) = false \/ truthy (snd qr) = false))
  /\ (forall message,
        e = IntegrityError message ->
        DB w' = DB w
        /\ exists amount qr w1 oid w2,
             select_normal_price (DB w) item_id game = Some amount
             /\ generate_qr_code (py_float amount) w = (inr qr, w1)
             /\ truthy (fst qr) = true /\ truthy (snd qr) = true
             /\ generate_short_transaction_id w1 = (inr oid, w2)
             /\ order_exists (DB w) oid).
Proof.
  intros E. pose proof (buy_spec w game item_id server_id zone_id) as H.
  rewrite E in H.
  inversion H as [ Hsel
                 | p qr w1 Hsel Hqr Ht Hdb
                 | p qr w1 w2 w'' oid Hsel Hqr Ht Hid Hin Hdb
                 | ]; subst.
  - split; [|split]; [|discriminate|discriminate].
    intros detail [= <-]. split; [reflexivity|]. split; [|reflexivity].
    now apply select_normal_price_none.
  - split; [|split]; [discriminate| |discriminate].
    intros detail [= <-]. split; [reflexivity|]. split; [assumption|].
    exists p, qr. split; [assumption|]. split; [unfold result_of; now rewrite Hqr|].
    apply orb_true_iff in Ht. destruct Ht as [Ht|Ht]; apply negb_true_iff in Ht; auto.
  - split; [|split]; [discriminate|discriminate|].
    intros message _. split; [assumption|].
    destruct (both_truthy _ Ht) as [Ht1 Ht2].
    exists p, qr, w1, oid, w2. repeat (split; [assumption|]).
    now apply order_exists_in.
Qed.

(** X9: when the item is in the catalog and QR generation returned a
    non-empty image and fingerprint, but the identifier drawn for the order is
    already the [order_id] of an order, [buy] ends in
    [sqlite3.IntegrityError] and the database is as it was: the existing
    order is not overwritten and no second row is written. *)
Theorem buy_taken_order_id
  (w w1 w2 : world) (game item_id server_id zone_id : string)
  (amount : REAL) (qr_b64 md5 oid : string) :
  select_normal_price (DB w) item_id game = Some amount ->
  generate_qr_code (py_float amount) w = (inr (Some qr_b64, Some md5), w1) ->
  qr_b64 <> "" -> md5 <> "" ->
  generate_short_transaction_id w1 = (inr oid, w2) ->
  order_exists (DB w) oid ->
  result_of (buy game item_id server_id zone_id) w
  = inl (IntegrityError "UNIQUE constraint failed: orders.order_id")
  /\ DB (world_after (buy game item_id server_id zone_id) w) = DB w.
Proof.
  intros Hsel Hqr Hb Hm Hid Htaken.
  pose proof (buy_spec w game item_id server_id zone_id) as H.
  unfold result_of, world_after.
  inversion H as [ Hsel' E
                 | p qr w1' Hsel' Hqr' Ht Hdb E
                 | p qr w1' w2' w' oid' Hsel' Hqr' Ht Hid' Hin Hdb E
                 | p qr w1' w2' w' oid' Hsel' Hqr' Ht Hid' Hnin Hdb E ].
  - congruence.
  - rewrite Hsel in Hsel'. injection Hsel' as <-.
    rewrite Hqr in Hqr'. injection Hqr' as <- <-.
    cbn [fst snd] in Ht. rewrite !truthy_some in Ht by assumption. discriminate.
  - cbn [fst snd]. split; [reflexivity | exact Hdb].
  - rewrite Hsel in Hsel'. injection Hsel' as <-.
    rewrite Hqr in Hqr'. injection Hqr' as <- <-.
    rewrite Hid in Hid'. injection Hid' as <- <-.
    exfalso. apply Hnin. now apply order_exists_in.
Qed.


(** ** Orders after a purchase *)

Lemma string_ltb_not_leb (a b : string) :
  String.ltb a b = true -> String.leb b a = true -> False.
Proof.
  without_collaborators.
  unfold String.ltb, String.leb. rewrite (String.compare_antisym a b).
  destruct (String.compare b a); simpl; intros H1 H2; discriminate.
Qed.

Lemma newest_is_first (l rest : list order_summary) (new : order_summary) :
  newest_first l ->
  Permutation l (new :: rest) ->
  (forall o, In o rest -> String.ltb (s_created_at o) (s_created_at new) = true) ->
  hd_error l = Some new.
Proof.
  without_collaborators.
  intros Hs Hp Hlt. destruct l as [|h t].
  - apply Permutation_nil in Hp. discriminate.
  - cbn. f_equal.
    assert (Hh : In h (new :: rest)) by (apply (Permutation_in _ Hp); now left).
    assert (Hn : In new (h :: t))
      by (apply (Permutation_in _ (Permutation_sym Hp)); now left).
    destruct Hh as [<-|Hh]; [reflexivity|].
    destruct Hn as [->|Hn]; [reflexivity|].
    exfalso. inversion Hs as [|? ? _ Hall]; subst.
    rewrite Forall_forall in Hall.
    exact (string_ltb_not_leb _ _ (Hlt h Hh) (Hall new Hn)).
Qed.

(** X10: after a [buy] that returned a response, the listing of [orders] is
    the earlier listing with one more entry, the new order (its [order_id]
    and amount as shown on the deposit page, status ["UNPAID"], [created_at]
    the clock reading); and when that reading is greater than the
    [created_at] of every order listed before, the new order comes first. *)
Theorem orders_after_buy
  (w w' : world) (game item_id server_id zone_id : string)
  (qr : option string) (oid : string) (amount : REAL) :
  buy game item_id server_id zone_id w
  = (inr (TemplateResponse "deposit.html" (deposit_context qr oid amount)), w') ->
  exists new before after,
    result_of orders w = inr (TemplateResponse "orders.html" (orders_context before))
    /\ result_of orders w' = inr (TemplateResponse "orders.html" (orders_context after))
    /\ Permutation after (new :: before)
    /\ s_order_id new = oid /\ s_amount new = amount
    /\ s_game new = game /\ s_item_id new = item_id
    /\ s_status new = "UNPAID" /\ s_created_at new = clock w 0
    /\ ((forall o, In o before -> String.ltb (s_created_at o) (clock w 0) = true) ->
        hd_error after = Some new).
Proof.
  intros E. apply buy_success in E.
  destruct E as (p & qr' & oid' & w1 & w2 & _ & _ & _ & _ & Hresp & _ & _ & Ho).
  injection Hresp as -> -> ->.
  set (row := new_order oid' game item_id (py_float p) server_id zone_id (snd qr')
                (clock w 0)) in *.
  set (mine := fun o : Orders.row => Z.eqb (Orders.user_id o) 1).
  exists (summary_of row),
         (map summary_of (order_by_created_at_desc (filter mine (tbl_orders (DB w))))),
         (map summary_of (order_by_created_at_desc (filter mine (tbl_orders (DB w'))))).
  assert (Hperm : Permutation
            (map summary_of (order_by_created_at_desc (filter mine (tbl_orders (DB w')))))
            (summary_of row
             :: map summary_of (order_by_created_at_desc (filter mine (tbl_orders (DB w)))))).
  { change (summary_of row :: map summary_of ?l) with (map summary_of (row :: l)).
    apply Permutation_map. rewrite Ho, filter_app. cbn [filter mine row new_order Orders.user_id].
    cbn [Z.eqb Pos.eqb].
    rewrite order_by_created_at_desc_perm.
    rewrite (order_by_created_at_desc_perm (filter mine (tbl_orders (DB w)))).
    apply Permutation_sym, Permutation_cons_append. }
  split; [unfold result_of; now rewrite orders_run|].
  split; [unfold result_of; now rewrite orders_run|].
  split; [exact Hperm|].
  repeat (split; [reflexivity|]).
  intros Hlt. apply newest_is_first with (rest := map summary_of
                 (order_by_created_at_desc (filter mine (tbl_orders (DB w))))).
  - apply newest_first_summaries, order_by_created_at_desc_sorted.
  - exact Hperm.
  - exact Hlt.
Qed.

(** X11: a run of [buy], whether it returns or raises, does not change what
    [order_status] answers for an order that existed before it. *)
Theorem buy_keeps_order_status
  (w : world) (game item_id server_id zone_id order_id : string) :
  order_exists (DB w) order_id ->
  result_of (order_status order_id) (world_after (buy game item_id server_id zone_id) w)
  = result_of (order_status order_id) w.
Proof.
  intros (r & Hin & Hid). unfold result_of, world_after.
  destruct (buy game item_id server_id zone_id w) as [[e|resp] w'] eqn:E; cbn [snd].
  - apply buy_failure in E. rewrite !order_status_run. cbn [fst]. now rewrite E.
  - apply buy_success in E.
    destruct E as (p & qr & oid & w1 & w2 & _ & _ & _ & _ & _ & _ & _ & Ho).
    rewrite !order_status_run. cbn [fst]. rewrite Ho, filter_app, map_app.
    destruct (filter (fun o => Orders.order_id o =? order_id) (tbl_orders (DB w)))
      as [|a l] eqn:Ef; [|reflexivity].
    exfalso.
    assert (Hr : In r (filter (fun o => Orders.order_id o =? order_id) (tbl_orders (DB w))))
      by (apply filter_In; split; [assumption | now apply String.eqb_eq]).
    rewrite Ef in Hr. exact Hr.
Qed.


(** ** States reachable by requests *)

Lemma select_normal_price_same_catalog (d d' : database) (item_id game : string) :
  tbl_item_prices d' = tbl_item_prices d ->
  select_normal_price d' item_id game = select_normal_price d item_id game.
Proof.
  without_collaborators.
  intros E. unfold select_normal_price. now rewrite E.
Qed.

(** A request leaves the database as it is, or appends one order made by
    [buy]. *)
Lemma handle_effect (w : world) (req : request) :
  DB (world_after (handle req) w) = DB w
  \/ exists row,
       created_by_buy (DB w) row
       /\ ~ order_exists (DB w) (Orders.order_id row)
       /\ DB (world_after (handle req) w)
          = {| tbl_users := tbl_users (DB w);
               tbl_item_prices := tbl_item_prices (DB w);
               tbl_orders := tbl_orders (DB w) ++ [row] |}.
Proof.
  unfold world_after.
  destruct req as [|game item_id server_id zone_id|order_id|]; cbn [handle].
  - destruct (home_run w) as (resp & ->). now left.
  - pose proof (buy_spec w game item_id server_id zone_id) as H.
    remember (buy game item_id server_id zone_id w) as out eqn:Eout. clear Eout.
    destruct H as [ Hsel
                  | p qr w1 Hsel Hqr Ht Hdb
                  | p qr w1 w2 w' oid Hsel Hqr Ht Hid Hin Hdb
                  | p qr w1 w2 w' oid Hsel Hqr Ht Hid Hnin Hdb ]; cbn [snd]; auto.
    right. eexists. split; [|split; [|exact Hdb]].
    + destruct (both_truthy _ Ht) as [_ Hmd5].
      destruct (generate_short_transaction_id_run w1) as (oid' & w2' & E & _ & _ & _ & Hpat).
      rewrite Hid in E. injection E as <- <-.
      unfold created_by_buy, new_order. cbn. repeat split; assumption.
    + cbn. now rewrite order_exists_in.
  - rewrite order_status_run. now left.
  - rewrite orders_run. now left.
Qed.

(** X12: in every state reachable from [w0] by any sequence of requests, the
    tables [users] and [item_prices] are those of [w0], the primary keys are
    still unique if they were, and [orders] is the table of [w0] followed by
    the orders created since; each of these belongs to [user_id] 1, is
    ["UNPAID"] with [payment_response] and [paid_at] NULL, has a non-empty
    fingerprint and an [order_id] matching [[A-Z0-9]{8}], and its [amount] is
    the [normal_price] the catalog has for its [item_id] and [game].  No
    handler ever changes or removes an order. *)
Theorem reachable_orders_append_only (w0 w : world) :
  reachable w0 w ->
  tbl_users (DB w) = tbl_users (DB w0)
  /\ tbl_item_prices (DB w) = tbl_item_prices (DB w0)
  /\ (pk_unique (DB w0) -> pk_unique (DB w))
  /\ exists created,
       tbl_orders (DB w) = (tbl_orders (DB w0) ++ created)%list
       /\ Forall (created_by_buy (DB w0)) created.
Proof.
  induction 1 as [|w req Hreach (Hu & Hi & Hpk & created & Ho & Hall)].
  - split; [reflexivity|]. split; [reflexivity|]. split; [auto|].
    exists []. split; [now rewrite app_nil_r | constructor].
  - split; [|split; [|split]].
    + destruct (handle_effect w req) as [->|(row & _ & _ & ->)]; exact Hu.
    + destruct (handle_effect w req) as [->|(row & _ & _ & ->)]; exact Hi.
    + intros Hpk0. now apply handle_preserves_pk_unique, Hpk.
    + destruct (handle_effect w req) as [->|(row & Hrow & _ & ->)].
      * exists created. auto.
      * exists (created ++ [row])%list. cbn [tbl_orders]. split.
        { now rewrite Ho, app_assoc. }
        { apply Forall_app. split; [exact Hall|]. constructor; [|constructor].
          destruct Hrow as (? & ? & ? & ? & ? & ? & Hsel).
          unfold created_by_buy. repeat split; try assumption.
          now rewrite <- (select_normal_price_same_catalog _ _ _ _ Hi). }
Qed.


(** ** What [buy] does not read *)

Lemma select_normal_price_columns (d : database) (item_id game : string) :
  select_normal_price d item_id game
  = fetchone
      (map (fun c => match c with (_, _, p) => p end)
           (filter (fun c => match c with (i, g, _) => (i =? item_id) && (g =? game) end)
                   (map price_columns (tbl_item_prices d)))).
Proof.
  without_collaborators.
  unfold select_normal_price. f_equal.
  induction (tbl_item_prices d) as [|r t IH]; simpl; [reflexivity|].
  destruct ((ItemPrices.item_id r =? item_id) && (ItemPrices.game r =? game));
    simpl; now rewrite IH.
Qed.

Lemma generate_short_transaction_id_value (w : world) :
  fst (generate_short_transaction_id w)
  = inr (string_of_list_ascii
           (map (fun i => nth (random w i mod 36)
                            (list_ascii_of_string (ascii_uppercase ++ digits))
                            "000"%char)
                (seq 0 8))).
Proof.
  without_collaborators.
  pose proof (choices_drawn (list_ascii_of_string (ascii_uppercase ++ digits)) 8 w) as Hd.
  unfold generate_short_transaction_id, bind.
  destruct (choices (list_ascii_of_string (ascii_uppercase ++ digits)) 8 w)
    as [[e|cs] w'']; cbn [fst] in Hd; [discriminate|].
  injection Hd as ->. reflexivity.
Qed.

Lemma generate_short_transaction_id_agree (w1 w2 w1' w2' : world) (s1 s2 : string) :
  (forall n, random w1 n = random w2 n) ->
  generate_short_transaction_id w1 = (inr s1, w1') ->
  generate_short_transaction_id w2 = (inr s2, w2') ->
  s1 = s2 /\ (forall n, random w1' n = random w2' n).
Proof.
  without_collaborators.
  intros Hr E1 E2.
  pose proof (generate_short_transaction_id_value w1) as V1.
  pose proof (generate_short_transaction_id_value w2) as V2.
  rewrite E1 in V1. rewrite E2 in V2. cbn [fst] in V1, V2.
  split.
  - assert (Hinr : forall a b : string, @inr exn string a = inr b -> a = b)
      by (intros a b H; now injection H).
    rewrite (Hinr _ _ V1), (Hinr _ _ V2).
    f_equal. apply map_ext. intros i. now rewrite Hr.
  - destruct (generate_short_transaction_id_run w1) as (? & ? & E1' & _ & _ & R1 & _).
    destruct (generate_short_transaction_id_run w2) as (? & ? & E2' & _ & _ & R2 & _).
    rewrite E1 in E1'. rewrite E2 in E2'.
    injection E1' as _ <-. injection E2' as _ <-.
    intros n. now rewrite R1, R2, Hr.
Qed.

Lemma generate_qr_code_agree (amount : REAL) (w1 w2 w1' w2' : world)
  (qr1 qr2 : option string * option string) :
  (forall n, random w1 n = random w2 n) ->
  generate_qr_code amount w1 = (inr qr1, w1') ->
  generate_qr_code amount w2 = (inr qr2, w2') ->
  qr1 = qr2 /\ (forall n, random w1' n = random w2' n).
Proof.
  intros Hr E1 E2.
  destruct (generate_qr_code_run amount w1) as (b1 & v1 & G1 & Q1 & _).
  destruct (generate_qr_code_run amount w2) as (b2 & v2 & G2 & Q2 & _).
  rewrite E1 in Q1. rewrite E2 in Q2.
  injection Q1 as -> ->. injection Q2 as -> ->.
  destruct (generate_short_transaction_id_agree _ _ _ _ _ _ Hr G1 G2) as [<- Hr'].
  split; [reflexivity | exact Hr'].
Qed.

(** X13: [buy] reads neither the [users] table nor any [reseller_price].
    Two worlds that agree on the columns [item_id], [game] and [normal_price]
    of the catalog, on the [orders] table, on the draws of the generator and
    on the next clock reading give the same result (the same page or the same
    exception) and the same [orders] table afterwards, whatever their users
    and reseller prices are. *)
Theorem buy_ignores_users_and_reseller_prices
  (w1 w2 : world) (game item_id server_id zone_id : string) :
  map price_columns (tbl_item_prices (DB w1)) = map price_columns (tbl_item_prices (DB w2)) ->
  tbl_orders (DB w1) = tbl_orders (DB w2) ->
  (forall n, random w1 n = random w2 n) ->
  clock w1 0 = clock w2 0 ->
  result_of (buy game item_id server_id zone_id) w1
  = result_of (buy game item_id server_id zone_id) w2
  /\ tbl_orders (DB (world_after (buy game item_id server_id zone_id) w1))
     = tbl_orders (DB (world_after (buy game item_id server_id zone_id) w2)).
Proof.
  intros Hcat Hord Hrnd Hclk.
  assert (Hsel : select_normal_price (DB w1) item_id game
                 = select_normal_price (DB w2) item_id game)
    by (now rewrite !select_normal_price_columns, Hcat).
  pose proof (buy_spec w1 game item_id server_id zone_id) as H1.
  pose proof (buy_spec w2 game item_id server_id zone_id) as H2.
  unfold result_of, world_after.
  remember (buy game item_id server_id zone_id w1) as out1 eqn:E1. clear E1.
  remember (buy game item_id server_id zone_id w2) as out2 eqn:E2. clear E2.
  destruct H1 as [ S1
                 | p1 q1 a1 S1 Q1 T1 D1
                 | p1 q1 a1 b1 c1 o1 S1 Q1 T1 I1 N1 D1
                 | p1 q1 a1 b1 c1 o1 S1 Q1 T1 I1 N1 D1 ];
    destruct H2 as [ S2
                   | p2 q2 a2 S2 Q2 T2 D2
                   | p2 q2 a2 b2 c2 o2 S2 Q2 T2 I2 N2 D2
                   | p2 q2 a2 b2 c2 o2 S2 Q2 T2 I2 N2 D2 ];
    cbn [fst snd];
    try (exfalso; congruence);
    try (split; [reflexivity | congruence]);
    (assert (p1 = p2) by congruence; subst p2;
     destruct (generate_qr_code_agree _ _ _ _ _ _ _ Hrnd Q1 Q2) as [<- Hrnd']);
    try (exfalso; congruence);
    try (split; [reflexivity | congruence]);
    (destruct (generate_short_transaction_id_agree _ _ _ _ _ _ Hrnd' I1 I2) as [<- _]);
    try (exfalso; rewrite Hord in *; contradiction);
    try (split; [reflexivity | congruence]).
  split; [reflexivity|]. rewrite D1, D2. cbn [tbl_orders]. now rewrite Hord, Hclk.
Qed.

End Handlers.

(** * Examples on the sample states *)

Local Abbreviation sample_generate_qr_code :=
  (generate_qr_code "chhira_ly@aclb" "855882000544" string
     sample_create_qr sample_qrcode_make sample_img_save_png
     sample_generate_md5 sample_b64encode).

Local Abbreviation sample_buy :=
  (buy "chhira_ly@aclb" "855882000544" string
     sample_create_qr sample_qrcode_make sample_img_save_png
     sample_generate_md5 sample_b64encode).

Local Abbreviation buy_without_khqr :=
  (buy "chhira_ly@aclb" "855882000544" string
     failing_create_qr sample_qrcode_make sample_img_save_png
     sample_generate_md5 sample_b64encode).

Local Abbreviation generate_qr_code_without_khqr :=
  (generate_qr_code "chhira_ly@aclb" "855882000544" string
     failing_create_qr sample_qrcode_make sample_img_save_png
     sample_generate_md5 sample_b64encode).

Lemma items_keys_unique : NoDup (map ItemPrices.item_id items).
Proof.
  repeat (constructor; [simpl; intuition discriminate|]). constructor.
Qed.

Lemma sample_orders_keys_unique :
  NoDup (map Orders.order_id (tbl_orders database_with_orders)).
Proof.
  repeat (constructor; [simpl; intuition discriminate|]). constructor.
Qed.

Lemma sample_users_keys_unique :
  NoDup (map Users.user_id (tbl_users database_with_orders)).
Proof.
  repeat (constructor; [simpl; intuition discriminate|]). constructor.
Qed.

(** The scenario of the specification: buying [86_DIAMOND] of [MLBB]. *)
Lemma buy_creates_unpaid_order_witness :
  select_normal_price (DB world_counting) "86_DIAMOND" "MLBB" = Some 0.03%float
  /\ result_of (sample_buy "MLBB" "86_DIAMOND" "1234" "5") world_counting
     = inr (TemplateResponse "deposit.html"
              (deposit_context (Some "iVBORw0KGgo00020101021229ABCDEFGH")
                 "IJKLMNOP" (py_float 0.03)))
  /\ matches_A_Z0_9_8 "IJKLMNOP" = true
  /\ exists row,
       tbl_orders (DB (world_after (sample_buy "MLBB" "86_DIAMOND" "1234" "5") world_counting))
       = (tbl_orders (DB world_counting) ++ [row])%list
       /\ Orders.order_id row = "IJKLMNOP"
       /\ Orders.status row = "UNPAID".
Proof.
  split; [vm_compute; reflexivity|].
  apply (buy_creates_unpaid_order "chhira_ly@aclb" "855882000544" string
           sample_create_qr sample_qrcode_make sample_img_save_png
           sample_generate_md5 sample_b64encode
           world_counting
           (world_after (sample_generate_qr_code (py_float 0.03)) world_counting)
           (world_after generate_short_transaction_id
              (world_after (sample_generate_qr_code (py_float 0.03)) world_counting))
           "MLBB" "86_DIAMOND" "1234" "5" 0.03%float
           "iVBORw0KGgo00020101021229ABCDEFGH" "0cc175b9c0f1b6a831c399e269772661"
           "IJKLMNOP").
  - vm_compute; reflexivity.
  - vm_compute; reflexivity.
  - discriminate.
  - discriminate.
  - vm_compute; reflexivity.
  - rewrite order_exists_in. vm_compute. intuition discriminate.
Defined.

(** C1 as stated fails: the item is in the catalog and QR generation returns
    an image and a fingerprint, but the identifier drawn for the order is
    [AAAAAAAA], which an order already has; [buy] ends in
    [sqlite3.IntegrityError], returns no [order_id] and writes no row. *)
Lemma buy_order_id_collision :
  in_catalog (DB world_zeros) "FF" "50_DIAMOND"
  /\ fst (sample_generate_qr_code (py_float 1.0%float) world_zeros)
     = inr (Some "iVBORw0KGgo00020101021229AAAAAAAA",
            Some "0cc175b9c0f1b6a831c399e269772661")
  /\ result_of (sample_buy "FF" "50_DIAMOND" "1234" "5") world_zeros
     = inl (IntegrityError "UNIQUE constraint failed: orders.order_id")
  /\ DB (world_after (sample_buy "FF" "50_DIAMOND" "1234" "5") world_zeros)
     = DB world_zeros.
Proof.
  split.
  - exists (ItemPrices.mk "50_DIAMOND" "FF" 1.0 0.85)%float.
    split; [simpl; tauto | split; reflexivity].
  - split; [vm_compute; reflexivity|]. split; vm_compute; reflexivity.
Qed.

(** An item that the catalog does not have. *)
Lemma buy_unknown_item_witness :
  ~ in_catalog (DB world_counting) "MLBB" "999_DIAMOND"
  /\ result_of (sample_buy "MLBB" "999_DIAMOND" "1234" "5") world_counting
     = inl (HTTPException 404 "Item not found")
  /\ world_after (sample_buy "MLBB" "999_DIAMOND" "1234" "5") world_counting
     = world_counting.
Proof.
  assert (H : ~ in_catalog (DB world_counting) "MLBB" "999_DIAMOND")
    by (apply (proj1 (select_normal_price_none _ _ _)); vm_compute; reflexivity).
  split; [exact H|].
  exact (buy_unknown_item "chhira_ly@aclb" "855882000544" string
           sample_create_qr sample_qrcode_make sample_img_save_png
           sample_generate_md5 sample_b64encode
           world_counting "MLBB" "999_DIAMOND" "1234" "5" H).
Defined.

(** [khqr.create_qr] raises: nothing is sold. *)
Lemma qr_failure_fails_closed_witness :
  qr_step_raises string failing_create_qr sample_qrcode_make sample_img_save_png
    sample_generate_md5
    (create_qr_arguments "chhira_ly@aclb" "855882000544" (py_float 0.03) "ABCDEFGH")
  /\ generate_qr_code_without_khqr (py_float 0.03) world_counting
     = (inr (None, None), world_after generate_short_transaction_id world_counting)
  /\ result_of (buy_without_khqr "MLBB" "86_DIAMOND" "1234" "5") world_counting
     = inl (HTTPException 500 "Failed to generate QR")
  /\ DB (world_after (buy_without_khqr "MLBB" "86_DIAMOND" "1234" "5") world_counting)
     = DB world_counting.
Proof.
  assert (Hbill : generate_short_transaction_id world_counting
                  = (inr "ABCDEFGH", world_after generate_short_transaction_id world_counting))
    by (vm_compute; reflexivity).
  assert (Hraise : qr_step_raises string failing_create_qr sample_qrcode_make
                     sample_img_save_png sample_generate_md5
                     (create_qr_arguments "chhira_ly@aclb" "855882000544"
                        (py_float 0.03) "ABCDEFGH"))
    by (left; reflexivity).
  assert (Hsel : select_normal_price (DB world_counting) "86_DIAMOND" "MLBB" = Some 0.03%float)
    by (vm_compute; reflexivity).
  destruct (qr_failure_fails_closed "chhira_ly@aclb" "855882000544" string
              failing_create_qr sample_qrcode_make sample_img_save_png
              sample_generate_md5 sample_b64encode
              world_counting (world_after generate_short_transaction_id world_counting)
              "MLBB" "86_DIAMOND" "1234" "5" 0.03%float "ABCDEFGH" Hbill)
    as [Hgen Hbuy].
  split; [exact Hraise|]. split; [exact (Hgen Hraise)|].
  exact (Hbuy Hsel (Hgen Hraise)).
Defined.

(** The scenarios of the specification for [order_status]: an unknown
    identifier, a stored order, and the order just created. *)
Lemma order_status_answers_witness :
  result_of (order_status "UNKNOWN1") world_counting
  = inr (JSONResponse [("error", JString "not found")] 404)
  /\ result_of (order_status "ZZ99ZZ99") world_counting
     = inr (Dict [("status", JString "PAID");
                  ("payment_response", JString "{}");
                  ("paid_at", JString "2024-01-02T08:05:00+07:00")])
  /\ result_of (order_status "IJKLMNOP")
       (world_after (sample_buy "MLBB" "86_DIAMOND" "1234" "5") world_counting)
     = inr (Dict [("status", JString "UNPAID");
                  ("payment_response", JNull);
                  ("paid_at", JNull)]).
Proof.
  split; [|split].
  - apply (proj1 (order_status_answers "chhira_ly@aclb" "855882000544" string
                    sample_create_qr sample_qrcode_make sample_img_save_png
                    sample_generate_md5 sample_b64encode world_counting "UNKNOWN1")).
    rewrite order_exists_in. vm_compute. intuition discriminate.
  - apply (proj1 (proj2 (order_status_answers "chhira_ly@aclb" "855882000544" string
                           sample_create_qr sample_qrcode_make sample_img_save_png
                           sample_generate_md5 sample_b64encode world_counting "ZZ99ZZ99"))
             order_of_user_2).
    + exact sample_orders_keys_unique.
    + right. left. reflexivity.
    + reflexivity.
  - apply (proj2 (proj2 (order_status_answers "chhira_ly@aclb" "855882000544" string
                           sample_create_qr sample_qrcode_make sample_img_save_png
                           sample_generate_md5 sample_b64encode world_counting "IJKLMNOP"))
             "MLBB" "86_DIAMOND" "1234" "5"
             (Some "iVBORw0KGgo00020101021229ABCDEFGH") 0.03%float).
    vm_compute. reflexivity.
Defined.

(** Buying [344_DIAMOND], listed at 6.4 with reseller price 5.6: the order is
    for 6.4. *)
Lemma buy_charges_normal_price_witness :
  exists qr oid row,
    TemplateResponse "deposit.html"
      (deposit_context (Some "iVBORw0KGgo00020101021229ABCDEFGH") "IJKLMNOP" 6.4)
    = TemplateResponse "deposit.html" (deposit_context qr oid 6.4)
    /\ tbl_orders (DB (world_after (sample_buy "MLBB" "344_DIAMOND" "1234" "5") world_counting))
       = (tbl_orders (DB world_counting) ++ [row])%list
    /\ Orders.order_id row = oid
    /\ Orders.amount row = 6.4%float
    /\ exists summaries s,
         orders (world_after (sample_buy "MLBB" "344_DIAMOND" "1234" "5") world_counting)
         = (inr (TemplateResponse "orders.html" (orders_context summaries)),
            world_after (sample_buy "MLBB" "344_DIAMOND" "1234" "5") world_counting)
         /\ In s summaries
         /\ s_order_id s = oid
         /\ s_amount s = 6.4%float.
Proof.
  apply (buy_charges_normal_price "chhira_ly@aclb" "855882000544" string
           sample_create_qr sample_qrcode_make sample_img_save_png
           sample_generate_md5 sample_b64encode
           world_counting
           (world_after (sample_buy "MLBB" "344_DIAMOND" "1234" "5") world_counting)
           "1234" "5" (ItemPrices.mk "344_DIAMOND" "MLBB" 6.4 5.6)).
  - exact items_keys_unique.
  - right. right. left. reflexivity.
  - vm_compute. reflexivity.
Defined.

Lemma edited_catalog_seeded : seeded (DB world_edited).
Proof.
  intros r Hr. simpl in Hr.
  repeat (destruct Hr as [<-|Hr]; [vm_compute; tauto|]). contradiction.
Qed.

(** Three more runs of the seed on a catalog whose [344_DIAMOND] price was
    edited to 6.9: the edit is still there. *)
Lemma init_db_idempotent_witness :
  seeded (DB world_edited)
  /\ DB (Nat.iter 3 (world_after init_db) world_edited) = database_with_edited_price.
Proof.
  split; [exact edited_catalog_seeded|].
  exact (proj2 (proj2 (proj2 (proj2 (proj2 (proj2 (init_db_idempotent world_edited 3))))))
           world_edited edited_catalog_seeded).
Defined.

(** User 7 is flagged as a reseller; nobody has the identifier 404. *)
Lemma is_reseller_flag_witness :
  (exists r, In r (tbl_users (DB world_counting))
             /\ Users.user_id r = 7%Z /\ Users.is_reseller r = 1%Z)
  /\ result_of (is_reseller 7) world_counting = inr true
  /\ result_of (is_reseller 404) world_counting = inr false.
Proof.
  assert (H7 : exists r, In r (tbl_users (DB world_counting))
                         /\ Users.user_id r = 7%Z /\ Users.is_reseller r = 1%Z).
  { exists (Users.mk 7 "shop" 12.5 1). split; [right; left; reflexivity|]. split; reflexivity. }
  split; [exact H7|]. split.
  - destruct (is_reseller_flag world_counting 7) as (b & E & Hiff & _); [lia|].
    unfold result_of. rewrite E.
    now rewrite (proj2 (Hiff sample_users_keys_unique) H7).
  - destruct (is_reseller_flag world_counting 404) as (b & E & _ & Hnone); [lia|].
    unfold result_of. rewrite E. rewrite Hnone; [reflexivity|].
    intros r Hr. simpl in Hr. destruct Hr as [<-|[<-|[]]]; discriminate.
Defined.

(** C8 as stated fails: no user has the identifier 2^63, yet [is_reseller]
    does not return [False] for it; binding it raises [OverflowError]. *)
Lemma is_reseller_overflow :
  ~ In 9223372036854775808%Z (map Users.user_id (tbl_users (DB world_counting)))
  /\ result_of (is_reseller 9223372036854775808) world_counting
     = inl (OverflowError "Python int too large to convert to SQLite INTEGER").
Proof.
  split.
  - simpl. intros [H|[H|[]]]; discriminate.
  - vm_compute. reflexivity.
Qed.

(** The order of user 2 is answered the same when it belongs to user 99. *)
Lemma order_status_ignores_owner_witness :
  result_of (order_status "ZZ99ZZ99") world_counting
  = result_of (order_status "ZZ99ZZ99") world_other_owners
  /\ (forall r,
        NoDup (map Orders.order_id (tbl_orders (DB world_counting))) ->
        In r (tbl_orders (DB world_counting)) -> Orders.order_id r = "ZZ99ZZ99" ->
        result_of (order_status "ZZ99ZZ99") world_other_owners
        = inr (Dict (status_body r))).
Proof.
  apply (order_status_ignores_owner world_counting world_other_owners "ZZ99ZZ99").
  vm_compute. reflexivity.
Defined.

(** ** Concrete runs *)

Example is_reseller_examples :
  result_of (is_reseller 7) world_counting = inr true
  /\ result_of (is_reseller 1) world_counting = inr false
  /\ result_of (is_reseller 404) world_counting = inr false.
Proof. repeat split; vm_compute; reflexivity. Qed.

Example orders_example :
  result_of orders world_counting
  = inr (TemplateResponse "orders.html"
           (orders_context [summary_of order_Q7; summary_of order_AAAAAAAA])).
Proof. vm_compute. reflexivity. Qed.

(** The listing of the sample orders, entry by entry: the two orders of user 1,
    the later one first; the order of user 2 is not listed. *)
Lemma orders_newest_first_witness :
  orders world_counting
  = (inr (TemplateResponse "orders.html"
            (orders_context
               [ {| s_order_id := "Q7Q7Q7Q7";
                    s_game := "MLBB";
                    s_item_id := "429_DIAMOND";
                    s_amount := 8.0;
                    s_server_id := "12";
                    s_zone_id := "8";
                    s_status := "UNPAID";
                    s_created_at := "2024-01-03T10:00:00+07:00";
                    s_paid_at := None |};
                 {| s_order_id := "AAAAAAAA";
                    s_game := "FF";
                    s_item_id := "50_DIAMOND";
                    s_amount := 1.0;
                    s_server_id := "77";
                    s_zone_id := "3";
                    s_status := "UNPAID";
                    s_created_at := "2023-12-31T09:30:00+07:00";
                    s_paid_at := None |} ])), world_counting)
  /\ exists rows,
       orders world_counting
       = (inr (TemplateResponse "orders.html"
                 (orders_context
                    (map (fun o =>
                            {| s_order_id := Orders.order_id o;
                               s_game := Orders.game o;
                               s_item_id := Orders.item_id o;
                               s_amount := Orders.amount o;
                               s_server_id := Orders.server_id o;
                               s_zone_id := Orders.zone_id o;
                               s_status := Orders.status o;
                               s_created_at := Orders.created_at o;
                               s_paid_at := Orders.paid_at o |})
                         rows))), world_counting)
       /\ Permutation rows
            (filter (fun o => Z.eqb (Orders.user_id o) 1) (tbl_orders (DB world_counting)))
       /\ (forall o, In o rows <->
                     In o (tbl_orders (DB world_counting)) /\ Orders.user_id o = 1%Z)
       /\ StronglySorted
            (fun a b => String.leb (Orders.created_at b) (Orders.created_at a) = true)
            rows
       /\ ((forall o, In o (tbl_orders (DB world_counting)) -> Orders.user_id o <> 1%Z) ->
           rows = []).
Proof.
  split; [vm_compute; reflexivity | exact (orders_newest_first world_counting)].
Defined.

Example init_db_example :
  DB (world_after init_db
        {| DB := empty_database; random := zeros; clock := noon |})
  = seeded_database.
Proof. vm_compute. reflexivity. Qed.

Example order_status_other_owner_example :
  result_of (order_status "ZZ99ZZ99") world_other_owners
  = inr (Dict [("status", JString "PAID");
               ("payment_response", JString "{}");
               ("paid_at", JString "2024-01-02T08:05:00+07:00")]).
Proof. vm_compute. reflexivity. Qed.

(** * Further properties that do not involve the collaborators *)

Lemma same_key_same_row {A K : Type} (key : A -> K) (l : list A) (a b : A) :
  NoDup (map key l) -> In a l -> In b l -> key a = key b -> a = b.
Proof.
  induction l as [|x l IH]; simpl; [intros _ []|].
  intros Hnd Ha Hb Hk. inversion Hnd as [|? ? Hnin Hnd']; subst.
  destruct Ha as [->|Ha], Hb as [->|Hb]; auto.
  - exfalso. apply Hnin. rewrite Hk. now apply in_map.
  - exfalso. apply Hnin. rewrite <- Hk. now apply in_map.
Qed.

(** X14: [init_db] completes the catalog without changing what it already
    answers: a price lookup that succeeded before the seed gives the same
    price after it, and a default item whose [item_id] had no row is found
    afterwards, under its game, at its default [normal_price]. *)
Theorem init_db_completes_catalog (w : world) :
  (forall item_id game p,
     select_normal_price (DB w) item_id game = Some p ->
     select_normal_price (DB (world_after init_db w)) item_id game = Some p)
  /\ (forall r,
        NoDup (map ItemPrices.item_id (tbl_item_prices (DB w))) ->
        In r items ->
        ~ In (ItemPrices.item_id r) (map ItemPrices.item_id (tbl_item_prices (DB w))) ->
        select_normal_price (DB (world_after init_db w))
          (ItemPrices.item_id r) (ItemPrices.game r)
        = Some (ItemPrices.normal_price r)).
Proof.
  assert (Hdb : tbl_item_prices (DB (world_after init_db w))
                = executemany_insert_or_ignore_item (tbl_item_prices (DB w)) items)
    by reflexivity.
  destruct (executemany_appends items (tbl_item_prices (DB w)))
    as (added & E & Hadded & Hnd & Hall).
  rewrite E in Hdb. split.
  - intros item_id game p Hsel. unfold select_normal_price in *.
    rewrite Hdb, filter_app, map_app.
    destruct (filter _ (tbl_item_prices (DB w))) as [|a l]; [discriminate | exact Hsel].
  - intros r Hnd0 Hr Hnin.
    assert (Hin : In r added).
    { specialize (Hall r Hr). rewrite map_app, in_app_iff in Hall.
      destruct Hall as [Hall|Hall]; [contradiction|].
      apply in_map_iff in Hall. destruct Hall as (r' & Hid & Hr').
      destruct (Hadded r' Hr') as [Hitems _].
      assert (r' = r) as <-; [|exact Hr'].
      apply (same_key_same_row ItemPrices.item_id items); auto using items_keys_unique. }
    apply select_normal_price_row.
    + rewrite Hdb. now apply Hnd.
    + rewrite Hdb. apply in_or_app. now right.
Qed.

(** X15: the listing and the status endpoint agree.  With the primary key on
    [order_id], for every entry of the listing of [orders], [order_status] of
    its [order_id] answers with the [status] and [paid_at] the listing
    shows. *)
Theorem listing_agrees_with_order_status
  (w : world) (summaries : list order_summary) (s : order_summary) :
  NoDup (map Orders.order_id (tbl_orders (DB w))) ->
  result_of orders w = inr (TemplateResponse "orders.html" (orders_context summaries)) ->
  In s summaries ->
  exists payment_response,
    result_of (order_status (s_order_id s)) w
    = inr (Dict [("status", JString (s_status s));
                 ("payment_response", json_of_text payment_response);
                 ("paid_at", json_of_text (s_paid_at s))]).
Proof.
  intros Hnd Hres Hin. unfold result_of in Hres. rewrite orders_run in Hres.
  cbn [fst] in Hres. injection Hres as <-.
  apply in_map_iff in Hin. destruct Hin as (row & <- & Hrow).
  apply (Permutation_in _ (order_by_created_at_desc_perm _)) in Hrow.
  apply filter_In in Hrow. destruct Hrow as [Hrow _].
  exists (Orders.payment_response row).
  unfold result_of. change (s_order_id (summary_of row)) with (Orders.order_id row).
  now rewrite order_status_of_row.
Qed.

(** * Examples for the further properties *)

Lemma every_matching_id_is_drawn_witness :
  exists draws,
    result_of generate_short_transaction_id
      {| DB := DB world_zeros; random := draws; clock := clock world_zeros |}
    = inr "Q7Q7Q7Q7".
Proof.
  apply (every_matching_id_is_drawn "Q7Q7Q7Q7" world_zeros). reflexivity.
Defined.

Lemma get_item_prices_rows_witness :
  get_item_prices "FF" world_counting
  = (inr (map price_entry
              (filter (fun r => ItemPrices.game r =? "FF")
                      (tbl_item_prices (DB world_counting)))),
     world_counting).
Proof.
  exact (get_item_prices_rows world_counting "FF" items_keys_unique).
Defined.

Example get_item_prices_example :
  result_of (get_item_prices "FF") world_counting
  = inr [ ("50_DIAMOND", {| normal := 1.0; reseller := 0.85 |});
          ("100_DIAMOND", {| normal := 2.0; reseller := 1.7 |}) ].
Proof. vm_compute. reflexivity. Qed.

Lemma home_lists_charged_prices_witness :
  exists ml_items ff_items reseller,
    home world_counting
    = (inr (TemplateResponse "mlbb.html"
              (mlbb_context ml_items ff_items reseller)), world_counting)
    /\ (forall item_id p,
          (exists pp, In (item_id, pp) ml_items /\ normal pp = p)
          <-> select_normal_price (DB world_counting) item_id "MLBB" = Some p)
    /\ (forall item_id p,
          (exists pp, In (item_id, pp) ff_items /\ normal pp = p)
          <-> select_normal_price (DB world_counting) item_id "FF" = Some p).
Proof.
  exact (home_lists_charged_prices world_counting items_keys_unique).
Defined.

Lemma buy_persists_the_order_witness :
  exists qr_b64 md5 oid amount,
    TemplateResponse "deposit.html"
      (deposit_context (Some "iVBORw0KGgo00020101021229ABCDEFGH") "IJKLMNOP" 0.03)
    = TemplateResponse "deposit.html" (deposit_context (Some qr_b64) oid amount)
    /\ qr_b64 <> "" /\ md5 <> ""
    /\ select_normal_price (DB world_counting) "86_DIAMOND" "MLBB" = Some amount
    /\ result_of (sample_generate_qr_code amount) world_counting
       = inr (Some qr_b64, Some md5)
    /\ tbl_orders (DB (world_after (sample_buy "MLBB" "86_DIAMOND" "1234" "5") world_counting))
       = (tbl_orders (DB world_counting)
          ++ [ {| Orders.order_id := oid;
                  Orders.user_id := 1;
                  Orders.game := "MLBB";
                  Orders.item_id := "86_DIAMOND";
                  Orders.amount := amount;
                  Orders.server_id := "1234";
                  Orders.zone_id := "5";
                  Orders.md5 := Some md5;
                  Orders.status := "UNPAID";
                  Orders.payment_response := None;
                  Orders.created_at := clock world_counting 0;
                  Orders.paid_at := None |} ])%list.
Proof.
  apply (buy_persists_the_order "chhira_ly@aclb" "855882000544" string
           sample_create_qr sample_qrcode_make sample_img_save_png
           sample_generate_md5 sample_b64encode
           world_counting
           (world_after (sample_buy "MLBB" "86_DIAMOND" "1234" "5") world_counting)
           "MLBB" "86_DIAMOND" "1234" "5").
  vm_compute. reflexivity.
Defined.

(** With a [khqr.create_qr] that raises, [buy] answers 500 for an item of the
    catalog and stores nothing. *)
Lemma buy_exception_causes_witness :
  buy_without_khqr "MLBB" "86_DIAMOND" "1234" "5" world_counting
  = (inl (HTTPException 500 "Failed to generate QR"),
     world_after (buy_without_khqr "MLBB" "86_DIAMOND" "1234" "5") world_counting)
  /\ DB (world_after (buy_without_khqr "MLBB" "86_DIAMOND" "1234" "5") world_counting)
     = DB world_counting
  /\ exists amount qr,
       select_normal_price (DB world_counting) "86_DIAMOND" "MLBB" = Some amount
       /\ result_of (generate_qr_code_without_khqr (py_float amount)) world_counting
          = inr qr
       /\ (truthy (fst qr) = false \/ truthy (snd qr) = false).
Proof.
  assert (E : buy_without_khqr "MLBB" "86_DIAMOND" "1234" "5" world_counting
              = (inl (HTTPException 500 "Failed to generate QR"),
                 world_after (buy_without_khqr "MLBB" "86_DIAMOND" "1234" "5")
                   world_counting))
    by (vm_compute; reflexivity).
  split; [exact E|].
  exact (proj2 (proj1 (proj2
           (buy_exception_causes "chhira_ly@aclb" "855882000544" string
              failing_create_qr sample_qrcode_make sample_img_save_png
              sample_generate_md5 sample_b64encode
              world_counting _ "MLBB" "86_DIAMOND" "1234" "5" _ E))
           "Failed to generate QR" eq_refl)).
Defined.

Lemma buy_taken_order_id_witness :
  order_exists (DB world_zeros) "AAAAAAAA"
  /\ result_of (sample_buy "FF" "50_DIAMOND" "1234" "5") world_zeros
     = inl (IntegrityError "UNIQUE constraint failed: orders.order_id")
  /\ DB (world_after (sample_buy "FF" "50_DIAMOND" "1234" "5") world_zeros)
     = DB world_zeros.
Proof.
  assert (H : order_exists (DB world_zeros) "AAAAAAAA")
    by (exists order_AAAAAAAA; split; [left; reflexivity | reflexivity]).
  split; [exact H|].
  apply (buy_taken_order_id "chhira_ly@aclb" "855882000544" string
           sample_create_qr sample_qrcode_make sample_img_save_png
           sample_generate_md5 sample_b64encode
           world_zeros
           (world_after (sample_generate_qr_code (py_float 1.0)) world_zeros)
           (world_after generate_short_transaction_id
              (world_after (sample_generate_qr_code (py_float 1.0)) world_zeros))
           "FF" "50_DIAMOND" "1234" "5" 1.0%float
           "iVBORw0KGgo00020101021229AAAAAAAA" "0cc175b9c0f1b6a831c399e269772661"
           "AAAAAAAA").
  - vm_compute; reflexivity.
  - vm_compute; reflexivity.
  - discriminate.
  - discriminate.
  - vm_compute; reflexivity.
  - exact H.
Defined.

Lemma orders_after_buy_witness :
  exists new before after,
    result_of orders world_counting
    = inr (TemplateResponse "orders.html" (orders_context before))
    /\ result_of orders
         (world_after (sample_buy "MLBB" "86_DIAMOND" "1234" "5") world_counting)
       = inr (TemplateResponse "orders.html" (orders_context after))
    /\ Permutation after (new :: before)
    /\ s_order_id new = "IJKLMNOP" /\ s_amount new = 0.03%float
    /\ s_game new = "MLBB" /\ s_item_id new = "86_DIAMOND"
    /\ s_status new = "UNPAID" /\ s_created_at new = clock world_counting 0
    /\ ((forall o, In o before ->
           String.ltb (s_created_at o) (clock world_counting 0) = true) ->
        hd_error after = Some new).
Proof.
  apply (orders_after_buy "chhira_ly@aclb" "855882000544" string
           sample_create_qr sample_qrcode_make sample_img_save_png
           sample_generate_md5 sample_b64encode
           world_counting
           (world_after (sample_buy "MLBB" "86_DIAMOND" "1234" "5") world_counting)
           "MLBB" "86_DIAMOND" "1234" "5"
           (Some "iVBORw0KGgo00020101021229ABCDEFGH")).
  vm_compute. reflexivity.
Defined.

Lemma buy_keeps_order_status_witness :
  result_of (order_status "ZZ99ZZ99")
    (world_after (sample_buy "MLBB" "86_DIAMOND" "1234" "5") world_counting)
  = result_of (order_status "ZZ99ZZ99") world_counting.
Proof.
  apply (buy_keeps_order_status "chhira_ly@aclb" "855882000544" string
           sample_create_qr sample_qrcode_make sample_img_save_png
           sample_generate_md5 sample_b64encode
           world_counting "MLBB" "86_DIAMOND" "1234" "5" "ZZ99ZZ99").
  exists order_of_user_2. split; [right; left; reflexivity | reflexivity].
Defined.

Local Abbreviation sample_handle :=
  (handle "chhira_ly@aclb" "855882000544" string
     sample_create_qr sample_qrcode_make sample_img_save_png
     sample_generate_md5 sample_b64encode).

Local Abbreviation sample_reachable :=
  (reachable "chhira_ly@aclb" "855882000544" string
     sample_create_qr sample_qrcode_make sample_img_save_png
     sample_generate_md5 sample_b64encode).

Lemma sample_session_reachable :
  sample_reachable world_counting
    (world_after (sample_handle GET_orders)
       (world_after (sample_handle (POST_buy "MLBB" "86_DIAMOND" "1234" "5"))
          (world_after (sample_handle GET_home) world_counting))).
Proof. repeat apply reachable_request. apply reachable_start. Qed.

(** The home page, a purchase and the listing, one after the other. *)
Lemma reachable_orders_append_only_witness :
  let w := world_after (sample_handle GET_orders)
             (world_after (sample_handle (POST_buy "MLBB" "86_DIAMOND" "1234" "5"))
                (world_after (sample_handle GET_home) world_counting)) in
  tbl_users (DB w) = tbl_users (DB world_counting)
  /\ tbl_item_prices (DB w) = tbl_item_prices (DB world_counting)
  /\ (pk_unique (DB world_counting) -> pk_unique (DB w))
  /\ exists created,
       tbl_orders (DB w) = (tbl_orders (DB world_counting) ++ created)%list
       /\ Forall (created_by_buy (DB world_counting)) created.
Proof.
  exact (reachable_orders_append_only "chhira_ly@aclb" "855882000544" string
           sample_create_qr sample_qrcode_make sample_img_save_png
           sample_generate_md5 sample_b64encode
           world_counting _ sample_session_reachable).
Defined.

(** The demo user made a reseller and every reseller price cut to one cent:
    the purchase is the same. *)
Lemma buy_ignores_users_and_reseller_prices_witness :
  result_of (sample_buy "MLBB" "344_DIAMOND" "1234" "5") world_counting
  = result_of (sample_buy "MLBB" "344_DIAMOND" "1234" "5") world_cheap_resellers
  /\ tbl_orders (DB (world_after (sample_buy "MLBB" "344_DIAMOND" "1234" "5") world_counting))
     = tbl_orders
         (DB (world_after (sample_buy "MLBB" "344_DIAMOND" "1234" "5")
                world_cheap_resellers)).
Proof.
  apply (buy_ignores_users_and_reseller_prices "chhira_ly@aclb" "855882000544" string
           sample_create_qr sample_qrcode_make sample_img_save_png
           sample_generate_md5 sample_b64encode
           world_counting world_cheap_resellers "MLBB" "344_DIAMOND" "1234" "5").
  - vm_compute. reflexivity.
  - reflexivity.
  - intros n. reflexivity.
  - reflexivity.
Defined.

Example buy_cheap_resellers_example :
  result_of (sample_buy "MLBB" "344_DIAMOND" "1234" "5") world_cheap_resellers
  = inr (TemplateResponse "deposit.html"
           (deposit_context (Some "iVBORw0KGgo00020101021229ABCDEFGH") "IJKLMNOP" 6.4)).
Proof. vm_compute. reflexivity. Qed.

(** Seeding an empty database, and seeding a catalog with an edited price. *)
Lemma init_db_completes_catalog_witness :
  select_normal_price (DB (world_after init_db world_empty)) "429_DIAMOND" "MLBB"
  = Some 8.0%float
  /\ select_normal_price (DB (world_after init_db world_edited)) "344_DIAMOND" "MLBB"
     = Some 6.9%float.
Proof.
  split.
  - apply (proj2 (init_db_completes_catalog world_empty)
             (ItemPrices.mk "429_DIAMOND" "MLBB" 8.0 7.0)).
    + constructor.
    + right. right. right. left. reflexivity.
    + intros [].
  - apply (proj1 (init_db_completes_catalog world_edited)).
    vm_compute. reflexivity.
Defined.

Lemma listing_agrees_with_order_status_witness :
  exists payment_response,
    result_of (order_status (s_order_id (summary_of order_Q7))) world_counting
    = inr (Dict [("status", JString (s_status (summary_of order_Q7)));
                 ("payment_response", json_of_text payment_response);
                 ("paid_at", json_of_text (s_paid_at (summary_of order_Q7)))]).
Proof.
  apply (listing_agrees_with_order_status world_counting
           [summary_of order_Q7; summary_of order_AAAAAAAA] (summary_of order_Q7)).
  - exact sample_orders_keys_unique.
  - vm_compute. reflexivity.
  - left. reflexivity.
Defined.
